(** * The configuration-example renderer

    A shallow embedding of
    [datadog_checks/dev/tooling/configuration/consumers/example.py]:
    the type descriptor [value_type_string], the output buffer
    [OptionWriter], the recursive renderer [write_option] and the file
    renderer [ExampleConsumer.render], followed by the properties the
    specification states about them.

    Python objects are modelled as follows.
    - [str] is [string]; one character is one code point below 256.
    - A schema node is a [dict]; the keys the renderer reads are the fields of
      [schema_node], and a key that may be missing is an [option].  Reading a
      missing key with [d[k]] raises [KeyError], reading it with [d.get(k)]
      does not.
    - The buffer is threaded explicitly; an exception loses it, so a
      computation that may raise returns a [result].
    - [yaml.safe_dump] (PyYAML) and [default_option_example] (module
      [..utils]) are not part of the sources at hand: the renderer is
      parametrised by them. *)

From Stdlib Require Import String Ascii List ZArith Lia Bool DecimalString Decimal.
Import ListNotations.
Set Warnings "-register-all".
Open Scope string_scope.

(** ** Python strings *)

Module Py.

(** The line feed, written ['\n'] in the source. *)
Definition nl : string := String (ascii_of_nat 10) EmptyString.

(** [str(n)] for an [int]. *)
Definition str_int (z : Z) : string := NilZero.string_of_int (Z.to_int z).

(** [str(n)] for a length or a difference of lengths. *)
Definition str_nat (n : nat) : string := NilZero.string_of_uint (Nat.to_uint n).

(** The characters [str.splitlines] breaks a line at, among the code points
    below 256: LF, VT, FF, CR, FS, GS, RS and NEL. *)
Definition is_linebreak (c : ascii) : bool :=
  let n := nat_of_ascii c in
  ((10 <=? n)%nat && (n <=? 13)%nat) || ((28 <=? n)%nat && (n <=? 30)%nat)
  || (n =? 133)%nat.

Definition is_cr (c : ascii) : bool := (nat_of_ascii c =? 13)%nat.
Definition is_lf (c : ascii) : bool := (nat_of_ascii c =? 10)%nat.

(** [s] reversed, in front of [acc]. *)
Fixpoint rev_string (acc s : string) : string :=
  match s with
  | EmptyString => acc
  | String c s' => rev_string (String c acc) s'
  end.

(** [splitlines_from cur after_cr s]: [cur] holds the characters of the
    line being read, in reverse; [after_cr] says that the previous character
    was a carriage return, so that a line feed coming next belongs to the
    same line break. *)
Fixpoint splitlines_from (cur : string) (after_cr : bool) (s : string) : list string :=
  match s with
  | EmptyString =>
      match cur with
      | EmptyString => []
      | _ => [rev_string EmptyString cur]
      end
  | String c s' =>
      if after_cr && is_lf c then splitlines_from cur false s'
      else if is_linebreak c
           then rev_string EmptyString cur :: splitlines_from EmptyString (is_cr c) s'
           else splitlines_from (String c cur) false s'
  end.

(** [s.splitlines()]: no line for the empty string, no empty last line
    after a final line break, [\r\n] read as one break. *)
Definition splitlines (s : string) : list string :=
  splitlines_from EmptyString false s.

(** [s[:n]] for [0 <= n]. *)
Fixpoint take (n : nat) (s : string) : string :=
  match n, s with
  | S n', String c s' => String c (take n' s')
  | _, _ => EmptyString
  end.

(** [s[:-2]]: all but the last two characters, empty when there are fewer. *)
Definition drop_last2 (s : string) : string := take (String.length s - 2) s.

(** Truth value of a [str]: non-empty. *)
Definition truthy (s : string) : bool :=
  match s with
  | EmptyString => false
  | String _ _ => true
  end.

(** [c * n] for a one-character string [c]. *)
Fixpoint replicate (n : nat) (c : ascii) : string :=
  match n with
  | O => EmptyString
  | S n' => String c (replicate n' c)
  end.

(** [''.join(strings)]. *)
Fixpoint join (strings : list string) : string :=
  match strings with
  | [] => EmptyString
  | s :: rest => s ++ join rest
  end.

End Py.

(** ** Values of examples *)

(** What a loaded YAML document holds.  A [float] is carried by the text
    [str] gives for it, the only thing the renderer asks of it. *)
Inductive py_value : Type :=
| PyNone
| PyBool (b : bool)
| PyInt (z : Z)
| PyFloat (text : string)
| PyStr (s : string)
| PyList (items : list py_value)
| PyDict (entries : list (py_value * py_value)).

(** ** Exceptions *)

Inductive result (A : Type) : Type :=
| Ok (a : A)
| KeyError (key : string).
Arguments Ok {A} a.
Arguments KeyError {A} key.

Definition bind {A B : Type} (r : result A) (k : A -> result B) : result B :=
  match r with
  | Ok a => k a
  | KeyError key => KeyError key
  end.

Definition result_map {A B : Type} (f : A -> B) (r : result A) : result B :=
  bind r (fun a => Ok (f a)).

Declare Scope result_scope.
Notation "x <- r ;; k" := (bind r (fun x => k))
  (at level 61, r at next level, right associativity) : result_scope.
Open Scope result_scope.

(** [d[key]] on a key that may be missing. *)
Definition getitem {A : Type} (key : string) (field : option A) : result A :=
  match field with
  | Some a => Ok a
  | None => KeyError key
  end.

(** ** The schema *)

(** [value['items']]. *)
Record items_spec : Type := { items_type : string }.

(** [option['value']]. *)
Record value_spec : Type := {
  value_type : string;
  value_items : option items_spec;
  value_example : option py_value
}.

(** One option of the specification, a [dict].  It is a value option when it
    has the key [value], a section otherwise. *)
Inductive schema_node : Type :=
  Node {
    name : string;
    value : option value_spec;
    required : option bool;
    description : string;
    multiple : option bool;
    options : option (list schema_node);
    example : option py_value
  }.

(** The two variants of the specification's data model. *)
Definition ValueOption (n : string) (r : bool) (v : value_spec) (d : string) : schema_node :=
  Node n (Some v) (Some r) d None None None.

Definition SectionOption (n d : string) (m : option bool)
  (os : option (list schema_node)) (e : option py_value) : schema_node :=
  Node n None None d m os e.

(** [file] of [spec['files']]. *)
Record file : Type := {
  example_name : string;
  file_options : list schema_node
}.

(** ** The output buffer *)

Definition DESCRIPTION_LINE_LENGTH_LIMIT : nat := 120.

(** [writer] is the text of the [StringIO], [errors] the list of
    diagnostics. *)
Record OptionWriter : Type := {
  writer : string;
  errors : list string
}.

Definition OptionWriter_init : OptionWriter :=
  {| writer := EmptyString; errors := [] |}.

Definition write (w : OptionWriter) (strings : list string) : OptionWriter :=
  {| writer := fold_left append strings (writer w); errors := errors w |}.

Definition new_error (w : OptionWriter) (s : string) : OptionWriter :=
  {| writer := writer w; errors := errors w ++ [s] |}.

Definition contents (w : OptionWriter) : string := writer w.

(** ** The type descriptor *)

Definition value_type_string (v : value_spec) : result string :=
  let value_type := value_type v in
  if value_type =? "object" then Ok "mapping"
  else if value_type =? "array" then
    items <- getitem "items" (value_items v) ;;
    let item_type := items_type items in
    if item_type =? "object" then Ok "list of mappings"
    else if item_type =? "array" then Ok "list of lists"
    else Ok ("list of " ++ item_type ++ "s")
  else Ok value_type.

(** ** Sample collaborators *)

(** The statements below hold for every [safe_dump] and every
    [default_option_example].  The two functions of this module are one
    choice of them, used to run the renderer on concrete schemas. *)
Module Sample.

(** The text of a scalar in block style, for values PyYAML writes plain;
    an empty sequence and an empty mapping are written in flow style. *)
Definition scalar (v : py_value) : string :=
  match v with
  | PyNone => "null"
  | PyBool true => "true"
  | PyBool false => "false"
  | PyInt z => Py.str_int z
  | PyFloat text => text
  | PyStr s => s
  | PyList _ => "[]"
  | PyDict _ => "{}"
  end.

(** The dump of [{key: v}] and of [[{key: v}]], the two documents a value
    option serialises, for [v] a plain scalar or an empty collection.
    Nothing else is described: the result is empty there. *)
Definition safe_dump (obj : py_value) : string :=
  match obj with
  | PyDict [(PyStr key, v)] => key ++ ": " ++ scalar v ++ Py.nl
  | PyList [PyDict [(PyStr key, v)]] => "- " ++ key ++ ": " ++ scalar v ++ Py.nl
  | _ => EmptyString
  end.

Definition upper_char (c : ascii) : ascii :=
  let n := nat_of_ascii c in
  if (97 <=? n)%nat && (n <=? 122)%nat then ascii_of_nat (n - 32) else c.

Fixpoint upper (s : string) : string :=
  match s with
  | EmptyString => EmptyString
  | String c s' => String (upper_char c) (upper s')
  end.

(** A name-derived default: the name in capitals between angle
    brackets. *)
Definition default_option_example (option_name : string) : string :=
  "<" ++ upper option_name ++ ">".

(** Schemas to run the renderer on. *)

Definition integer_value (example : py_value) : value_spec :=
  {| value_type := "integer"; value_items := None; value_example := Some example |}.

Definition string_value (example : py_value) : value_spec :=
  {| value_type := "string"; value_items := None; value_example := Some example |}.

Definition port (required : bool) : schema_node :=
  ValueOption "port" required (integer_value (PyInt 8125)) "The port to use.".

(** A value option whose description is one line of [n] letters. *)
Definition described (n : nat) : schema_node :=
  ValueOption "foo" true (string_value (PyStr "bar")) (Py.replicate n "a"%char).

Definition instances (options : list schema_node) : schema_node :=
  SectionOption "instances" "Instances." (Some true) (Some options) None.

Definition conf (key : string) (options : list schema_node) : file :=
  {| example_name := key; file_options := options |}.

End Sample.

(** ** The Vault check

    A shallow embedding of [datadog_checks/vault/vault.py].  The check is an
    object whose fields change and which submits service checks, gauges and
    events: a method is a function from the check before the call to the
    check after it and to what the call returns or raises, since what was
    submitted before an exception stays submitted.  What the check calls
    outside of its file is gathered in [collaborators]. *)

Module Vault.

(** [s[-1]] for a non-empty [s]. *)
Fixpoint last_char (s : string) : string :=
  match s with
  | EmptyString => EmptyString
  | String c EmptyString => String c EmptyString
  | String _ s' => last_char s'
  end.

(** [s[:-1]]. *)
Fixpoint drop_last (s : string) : string :=
  match s with
  | EmptyString => EmptyString
  | String _ EmptyString => EmptyString
  | String c s' => String c (drop_last s')
  end.

(** Truth value of a field that holds [None] or a [str]. *)
Definition truthy_field (field : option string) : bool :=
  match field with
  | Some s => Py.truthy s
  | None => false
  end.

(** Truth value of a value read from JSON. *)
Definition py_truthy (v : py_value) : bool :=
  match v with
  | PyNone => false
  | PyBool b => b
  | PyInt z => negb (z =? 0)%Z
  | PyFloat text => negb ((text =? "0.0") || (text =? "-0.0"))
  | PyStr s => Py.truthy s
  | PyList items => match items with [] => false | _ :: _ => true end
  | PyDict entries => match entries with [] => false | _ :: _ => true end
  end.

Inductive exn : Type :=
| ConfigurationError (msg : string)
| ApiUnreachable (msg : string)
| AttributeError
| TypeError
| FileError
| ProcessError (text : string).

Inductive outcome (A : Type) : Type :=
| Done (a : A)
| Raised (e : exn).
Arguments Done {A} a.
Arguments Raised {A} e.

(** What [self.http.get(url)] and then [response.json()] do. *)
Inductive json_body : Type :=
| Json (data : py_value)
| InvalidJson.

Inductive http_result : Type :=
| Response (status_code : Z) (body : json_body)
| RaisesTimeout
| RaisesRequestException.

(** The [except] clauses of [access_api]. *)
Inductive handler : Type :=
| OnJSONDecodeError
| OnTimeout
| OnRequestException.

Inductive status : Type := OK | CRITICAL.

Record service_check_call : Type := {
  sc_name : string;
  sc_status : status;
  sc_message : option string;
  sc_tags : list string
}.

Record gauge_call : Type := {
  g_name : string;
  g_value : Z;
  g_tags : list string
}.

Record event_call : Type := {
  ev_timestamp : string;
  ev_event_type : string;
  ev_msg_title : string;
  ev_msg_text : string;
  ev_alert_type : string;
  ev_source_type_name : string;
  ev_host : string;
  ev_tags : list string
}.

Inductive log_level : Type := WARNING | ERROR.

(** The code of the agent and of the libraries that the check calls.
    - [is_affirmative] is [datadog_checks.base.is_affirmative].
    - [http_get url] is [self.http.get(url)] followed by [response.json()].
    - [api_unreachable_caught] names the [except] clause of [access_api]
      that catches [ApiUnreachable] (module [.errors]), [None] when the
      class is caught by none of them.
    - [timeout_text] is ['{}'.format(self.http.options['timeout'][0])].
    - [format_collection v] is ['{}'.format(v)] for a list or a dict.
    - [py_equal] is [==] on values read from JSON.
    - [timestamp] is the text of [time()] and [hostname] is [self.hostname].
    - [read_file path] is [open(path, 'rb').read().decode('utf-8')], [None]
      when it raises.
    - [process prometheus_url] is [self.process(self._scraper_config)]:
      [None] when it returns, [str(e)] when it raises [e].
    A submission method takes the tags as they are when it is called. *)
Record collaborators : Type := {
  is_affirmative : py_value -> bool;
  http_get : string -> http_result;
  api_unreachable_caught : option handler;
  timeout_text : string;
  format_collection : py_value -> string;
  py_equal : py_value -> py_value -> bool;
  timestamp : string;
  hostname : string;
  read_file : string -> option string;
  process : option string -> option string
}.

(** The fields of the check, and what it has submitted and logged. *)
Record check : Type := {
  api_url : string;
  client_token : option string;
  client_token_path : option string;
  tags : list string;
  previous_leader : option py_value;
  detect_leader : bool;
  api : option string;
  scraper_config : option string;
  token_header : option string;
  service_checks : list service_check_call;
  gauges : list gauge_call;
  events : list event_call;
  log : list (log_level * string)
}.

Definition set_api_url (c : check) (u : string) : check :=
  {| api_url := u; client_token := client_token c;
     client_token_path := client_token_path c; tags := tags c;
     previous_leader := previous_leader c; detect_leader := detect_leader c;
     api := api c; scraper_config := scraper_config c;
     token_header := token_header c; service_checks := service_checks c;
     gauges := gauges c; events := events c; log := log c |}.

Definition set_api (c : check) (version : string) : check :=
  {| api_url := api_url c; client_token := client_token c;
     client_token_path := client_token_path c; tags := tags c;
     previous_leader := previous_leader c; detect_leader := detect_leader c;
     api := Some version; scraper_config := scraper_config c;
     token_header := token_header c; service_checks := service_checks c;
     gauges := gauges c; events := events c; log := log c |}.

Definition set_scraper_config (c : check) (prometheus_url : string) : check :=
  {| api_url := api_url c; client_token := client_token c;
     client_token_path := client_token_path c; tags := tags c;
     previous_leader := previous_leader c; detect_leader := detect_leader c;
     api := api c; scraper_config := Some prometheus_url;
     token_header := token_header c; service_checks := service_checks c;
     gauges := gauges c; events := events c; log := log c |}.

Definition set_previous_leader (c : check) (leader : py_value) : check :=
  {| api_url := api_url c; client_token := client_token c;
     client_token_path := client_token_path c; tags := tags c;
     previous_leader := Some leader; detect_leader := detect_leader c;
     api := api c; scraper_config := scraper_config c;
     token_header := token_header c; service_checks := service_checks c;
     gauges := gauges c; events := events c; log := log c |}.

(** [self.service_check(name, status, message=message, tags=tags)]. *)
Definition service_check (c : check) (name : string) (s : status)
  (message : option string) (tags_ : list string) : check :=
  {| api_url := api_url c; client_token := client_token c;
     client_token_path := client_token_path c; tags := tags c;
     previous_leader := previous_leader c; detect_leader := detect_leader c;
     api := api c; scraper_config := scraper_config c;
     token_header := token_header c;
     service_checks :=
       (service_checks c
          ++ [{| sc_name := name; sc_status := s; sc_message := message;
                 sc_tags := tags_ |}])%list;
     gauges := gauges c; events := events c; log := log c |}.

(** [self.gauge(name, value, tags=tags)]. *)
Definition gauge (c : check) (name : string) (value : Z) (tags_ : list string) : check :=
  {| api_url := api_url c; client_token := client_token c;
     client_token_path := client_token_path c; tags := tags c;
     previous_leader := previous_leader c; detect_leader := detect_leader c;
     api := api c; scraper_config := scraper_config c;
     token_header := token_header c; service_checks := service_checks c;
     gauges :=
       (gauges c ++ [{| g_name := name; g_value := value; g_tags := tags_ |}])%list;
     events := events c; log := log c |}.

(** [self.event(event)]. *)
Definition event (c : check) (ev : event_call) : check :=
  {| api_url := api_url c; client_token := client_token c;
     client_token_path := client_token_path c; tags := tags c;
     previous_leader := previous_leader c; detect_leader := detect_leader c;
     api := api c; scraper_config := scraper_config c;
     token_header := token_header c; service_checks := service_checks c;
     gauges := gauges c; events := (events c ++ [ev])%list; log := log c |}.

(** [self.log.warning(...)] and [self.log.error(...)], with the message
    formatted. *)
Definition log_record (c : check) (level : log_level) (message : string) : check :=
  {| api_url := api_url c; client_token := client_token c;
     client_token_path := client_token_path c; tags := tags c;
     previous_leader := previous_leader c; detect_leader := detect_leader c;
     api := api c; scraper_config := scraper_config c;
     token_header := token_header c; service_checks := service_checks c;
     gauges := gauges c; events := events c;
     log := (log c ++ [(level, message)])%list |}.

Definition CHECK_NAME : string := "vault".
Definition DEFAULT_API_VERSION : string := "1".
Definition EVENT_LEADER_CHANGE : string := "vault.leader_change".
Definition SERVICE_CHECK_CONNECT : string := "vault.can_connect".
Definition SERVICE_CHECK_UNSEALED : string := "vault.unsealed".
Definition SERVICE_CHECK_INITIALIZED : string := "vault.initialized".
Definition SYS_HEALTH_DEFAULT_CODES : list Z := [200; 429; 472; 473; 501; 503]%Z.
Definition SYS_LEADER_DEFAULT_CODES : list Z := [503]%Z.

(** [status_code in codes]. *)
Definition code_in (status_code : Z) (codes : list Z) : bool :=
  existsb (Z.eqb status_code) codes.

Definition set_client_token (c : check) (token : string) : check :=
  {| api_url := api_url c; client_token := Some token;
     client_token_path := client_token_path c; tags := tags c;
     previous_leader := previous_leader c; detect_leader := detect_leader c;
     api := api c; scraper_config := scraper_config c;
     token_header := Some token; service_checks := service_checks c;
     gauges := gauges c; events := events c; log := log c |}.

Definition renew_client_token (E : collaborators) (c : check) : check * outcome unit :=
  match client_token_path c with
  | None => (c, Raised TypeError)
  | Some path =>
      match read_file E path with
      | Some content => (set_client_token c content, Done tt)
      | None => (c, Raised FileError)
      end
  end.

Definition parse_config (E : collaborators) (c : check) : check * outcome unit :=
  if negb (Py.truthy (api_url c)) then
    (c, Raised (ConfigurationError "Vault setting `api_url` is required"))
  else
    let api_version := last_char (api_url c) in
    let '(c, api_version) :=
      if negb (api_version =? "1") then
        let c := log_record c WARNING
                   ("Unknown Vault API version `" ++ api_version
                      ++ "`, using version `" ++ DEFAULT_API_VERSION ++ "`") in
        let api_version := DEFAULT_API_VERSION in
        (set_api_url c (drop_last (api_url c) ++ api_version), api_version)
      else (c, api_version) in
    let c := set_api c api_version in
    let '(c, renewed) :=
      if truthy_field (client_token_path c) then renew_client_token E c
      else (c, Done tt) in
    match renewed with
    | Raised e => (c, Raised e)
    | Done _ =>
        match client_token c with
        | Some token =>
            if Py.truthy token then
              let c := set_scraper_config c
                         (api_url c ++ "/sys/metrics?format=prometheus") in
              (set_client_token c token, Done tt)
            else (c, Done tt)
        | None => (c, Done tt)
        end
    end.

(** The body of an [except] clause of [access_api]. *)
Definition handle (E : collaborators) (h : handler) (c : check) (url : string)
  (tags_ : list string) : check * outcome py_value :=
  let msg :=
    match h with
    | OnJSONDecodeError => "The Vault endpoint `" ++ url ++ "` returned invalid json data."
    | OnTimeout =>
        "Vault endpoint `" ++ url ++ "` timed out after " ++ timeout_text E ++ " seconds"
    | OnRequestException => "Error accessing Vault endpoint `" ++ url ++ "`"
    end in
  (service_check c SERVICE_CHECK_CONNECT CRITICAL (Some msg) tags_,
   Raised (ApiUnreachable msg)).

Definition access_api (E : collaborators) (c : check) (url : string)
  (tags_ : list string) (ignore_status_codes : option (list Z))
  : check * outcome py_value :=
  let ignore_status_codes :=
    match ignore_status_codes with
    | None => []
    | Some codes => codes
    end in
  match http_get E url with
  | Response status_code body =>
      if (400 <=? status_code)%Z && negb (code_in status_code ignore_status_codes) then
        let msg := "The Vault endpoint `" ++ url ++ "` returned "
                     ++ Py.str_int status_code in
        let c := service_check c SERVICE_CHECK_CONNECT CRITICAL (Some msg) tags_ in
        match api_unreachable_caught E with
        | Some h => handle E h c url tags_
        | None => (c, Raised (ApiUnreachable msg))
        end
      else
        match body with
        | Json json_data => (c, Done json_data)
        | InvalidJson => handle E OnJSONDecodeError c url tags_
        end
  | RaisesTimeout => handle E OnTimeout c url tags_
  | RaisesRequestException => handle E OnRequestException c url tags_
  end.

(** [data.get(key)] for a dict [data] read from JSON, whose keys are
    [str] and which holds a key once: [None] when the key is missing. *)
Fixpoint lookup (key : string) (entries : list (py_value * py_value)) : py_value :=
  match entries with
  | [] => PyNone
  | (PyStr k, v) :: rest => if k =? key then v else lookup key rest
  | _ :: rest => lookup key rest
  end.

(** ['{}'.format(v)]. *)
Definition format_value (E : collaborators) (v : py_value) : string :=
  match v with
  | PyNone => "None"
  | PyBool b => if b then "True" else "False"
  | PyInt z => Py.str_int z
  | PyFloat text => text
  | PyStr s => s
  | PyList _ | PyDict _ => format_collection E v
  end.

(** The strings [sep.join] iterates over: the items of a list of [str],
    the characters of a [str], the keys of a dict whose keys are [str]. *)
Fixpoint strings_of (items : list py_value) : option (list string) :=
  match items with
  | [] => Some []
  | PyStr s :: rest =>
      match strings_of rest with
      | Some l => Some (s :: l)
      | None => None
      end
  | _ :: _ => None
  end.

Fixpoint characters (s : string) : list string :=
  match s with
  | EmptyString => []
  | String c s' => String c EmptyString :: characters s'
  end.

Fixpoint join_with (sep : string) (parts : list string) : string :=
  match parts with
  | [] => EmptyString
  | [p] => p
  | p :: rest => p ++ sep ++ join_with sep rest
  end.

Definition py_join (sep : string) (v : py_value) : outcome string :=
  match v with
  | PyStr s => Done (join_with sep (characters s))
  | PyList items =>
      match strings_of items with
      | Some parts => Done (join_with sep parts)
      | None => Raised TypeError
      end
  | PyDict entries =>
      match strings_of (map fst entries) with
      | Some parts => Done (join_with sep parts)
      | None => Raised TypeError
      end
  | PyNone | PyBool _ | PyInt _ | PyFloat _ => Raised TypeError
  end.

(** The tags after the call come with what a method returns: the caller's
    list is the one the method appends to.  [.get] on what is not a dict
    raises [AttributeError]. *)
Definition check_leader_v1 (E : collaborators) (c : check) (tags_ : list string)
  : check * outcome (list string) :=
  let url := api_url c ++ "/sys/leader" in
  match access_api E c url tags_ (Some SYS_LEADER_DEFAULT_CODES) with
  | (c, Raised e) => (c, Raised e)
  | (c, Done (PyDict leader_data)) =>
      let errors := lookup "errors" leader_data in
      if py_truthy errors then
        match py_join ";" errors with
        | Raised e => (c, Raised e)
        | Done error_msg =>
            (log_record c ERROR
               ("Unable to fetch leader data from vault. Reason: " ++ error_msg),
             Done tags_)
        end
      else
        let is_leader := is_affirmative E (lookup "is_self" leader_data) in
        let tags_ :=
          (tags_ ++ [("is_leader:" ++ (if is_leader then "true" else "false"))%string])%list in
        let c := gauge c "vault.is_leader" (if is_leader then 1 else 0)%Z tags_ in
        let current_leader := lookup "leader_address" leader_data in
        if detect_leader c && py_truthy current_leader then
          let c :=
            match previous_leader c with
            | Some previous =>
                if negb (py_equal E current_leader previous) then
                  event c
                    {| ev_timestamp := timestamp E;
                       ev_event_type := EVENT_LEADER_CHANGE;
                       ev_msg_title := "Leader change";
                       ev_msg_text :=
                         "Leader changed from `" ++ format_value E previous
                           ++ "` to `" ++ format_value E current_leader ++ "`.";
                       ev_alert_type := "info";
                       ev_source_type_name := CHECK_NAME;
                       ev_host := hostname E;
                       ev_tags := tags_ |}
                else c
            | None => c
            end in
          (set_previous_leader c current_leader, Done tags_)
        else (c, Done tags_)
  | (c, Done _) => (c, Raised AttributeError)
  end.

Definition check_health_v1 (E : collaborators) (c : check) (tags_ : list string)
  : check * outcome (list string) :=
  let url := api_url c ++ "/sys/health" in
  match access_api E c url tags_ (Some SYS_HEALTH_DEFAULT_CODES) with
  | (c, Raised e) => (c, Raised e)
  | (c, Done (PyDict health_data)) =>
      let cluster_name := lookup "cluster_name" health_data in
      let tags_ :=
        if py_truthy cluster_name
        then (tags_ ++ [("cluster_name:" ++ format_value E cluster_name)%string])%list
        else tags_ in
      let vault_version := lookup "version" health_data in
      let tags_ :=
        if py_truthy vault_version
        then (tags_ ++ [("vault_version:" ++ format_value E vault_version)%string])%list
        else tags_ in
      let unsealed := negb (is_affirmative E (lookup "sealed" health_data)) in
      let c :=
        if unsealed
        then service_check c SERVICE_CHECK_UNSEALED OK None tags_
        else service_check c SERVICE_CHECK_UNSEALED CRITICAL None tags_ in
      let initialized := is_affirmative E (lookup "initialized" health_data) in
      let c :=
        if initialized
        then service_check c SERVICE_CHECK_INITIALIZED OK None tags_
        else service_check c SERVICE_CHECK_INITIALIZED CRITICAL None tags_ in
      (c, Done tags_)
  | (c, Done _) => (c, Raised AttributeError)
  end.

(** [__init__]: the fields as read from the instance, [None] standing for
    a key the instance does not have. *)
Definition init (E : collaborators) (api_url_ client_token_ client_token_path_ : option string)
  (tags_ : option (list string)) (detect_leader_ : option py_value) : check :=
  {| api_url := match api_url_ with Some u => u | None => EmptyString end;
     client_token := client_token_;
     client_token_path := client_token_path_;
     tags := match tags_ with Some l => l | None => [] end;
     previous_leader := None;
     detect_leader :=
       is_affirmative E
         (match detect_leader_ with Some v => v | None => PyBool false end);
     api := None;
     scraper_config := None;
     token_header := None;
     service_checks := [];
     gauges := [];
     events := [];
     log := [] |}.

(** [str(e).startswith(prefix)]. *)
Fixpoint startswith (s prefix : string) : bool :=
  match prefix, s with
  | EmptyString, _ => true
  | String a prefix', String b s' => Ascii.eqb a b && startswith s' prefix'
  | String _ _, EmptyString => false
  end.

(** [check(self, _)].  [self._api] is [None] until [parse_config] has run;
    afterwards its methods are those of version 1. *)
Definition run_check (E : collaborators) (c : check) : check * outcome unit :=
  let tags_ := tags c in
  match api c with
  | None => (c, Raised AttributeError)
  | Some _ =>
      match check_leader_v1 E c tags_ with
      | (c, Raised e) => (c, Raised e)
      | (c, Done tags_) =>
          match check_health_v1 E c tags_ with
          | (c, Raised e) => (c, Raised e)
          | (c, Done tags_) =>
              let connected c :=
                (service_check c SERVICE_CHECK_CONNECT OK None tags_, Done tt) in
              if truthy_field (client_token c) then
                match process E (scraper_config c) with
                | None => connected c
                | Some text =>
                    if truthy_field (client_token_path c)
                       && startswith text "403 Client Error: Forbidden for url"
                    then
                      let c := log_record c ERROR
                                 "Permission denied, refreshing the client token..." in
                      renew_client_token E c
                    else (c, Raised (ProcessError text))
                end
              else connected c
          end
      end
  end.

(** What a call has added to the service checks of the check. *)
Definition submitted (before after : check) (added : list service_check_call) : Prop :=
  service_checks after = (service_checks before ++ added)%list.


(** The fields that hold the configuration. *)
Definition same_configuration (c c' : check) : Prop :=
  api_url c' = api_url c /\ client_token_path c' = client_token_path c
  /\ tags c' = tags c /\ detect_leader c' = detect_leader c /\ api c' = api c
  /\ scraper_config c' = scraper_config c.

(** A call that has only submitted service checks. *)
Definition only_service_checks (c c' : check) : Prop :=
  api_url c' = api_url c /\ client_token c' = client_token c
  /\ client_token_path c' = client_token_path c /\ tags c' = tags c
  /\ previous_leader c' = previous_leader c /\ detect_leader c' = detect_leader c
  /\ api c' = api c /\ scraper_config c' = scraper_config c
  /\ token_header c' = token_header c /\ gauges c' = gauges c
  /\ events c' = events c /\ log c' = log c.

(** The service check that reports the connection as failing, with the
    tags of the call. *)
Definition connect_critical (tags_ : list string) (sc : service_check_call) : Prop :=
  sc_name sc = SERVICE_CHECK_CONNECT /\ sc_status sc = CRITICAL /\ sc_tags sc = tags_.

(** The codes at or above 400 that the health endpoint answers with. *)
Definition health_code (status_code : Z) : Prop :=
  In status_code [429; 472; 473; 501; 503]%Z.

(** The tags [check_health_v1] adds for the data it has read. *)
Definition health_tags (E : collaborators) (health_data : list (py_value * py_value))
  : list string :=
  ((if py_truthy (lookup "cluster_name" health_data)
    then [("cluster_name:" ++ format_value E (lookup "cluster_name" health_data))%string]
    else [])
   ++ (if py_truthy (lookup "version" health_data)
       then [("vault_version:" ++ format_value E (lookup "version" health_data))%string]
       else []))%list.

(** The event [check_leader_v1] submits for a change of leader. *)
Definition leader_event (E : collaborators) (previous current : py_value)
  (tags_ : list string) : event_call :=
  {| ev_timestamp := timestamp E;
     ev_event_type := "vault.leader_change";
     ev_msg_title := "Leader change";
     ev_msg_text :=
       "Leader changed from `" ++ format_value E previous ++ "` to `"
         ++ format_value E current ++ "`.";
     ev_alert_type := "info";
     ev_source_type_name := "vault";
     ev_host := hostname E;
     ev_tags := tags_ |}.

(** The tag [check_leader_v1] adds. *)
Definition leader_tag (E : collaborators) (leader_data : list (py_value * py_value))
  : string :=
  "is_leader:" ++ (if is_affirmative E (lookup "is_self" leader_data)
                   then "true" else "false").

(** The fields of a check and the functions that set them, for [cbn]. *)
Ltac fields :=
  cbn [api_url client_token client_token_path tags previous_leader detect_leader
       api scraper_config token_header service_checks gauges events log
       set_api set_api_url set_scraper_config set_client_token set_previous_leader
       service_check gauge event log_record fst snd].


(** The same by value, so that a check set several times over is computed
    from the inside. *)
Ltac records :=
  cbv beta iota zeta delta
    [api_url client_token client_token_path tags previous_leader detect_leader
     api scraper_config token_header service_checks gauges events log
     set_api set_api_url set_scraper_config set_client_token set_previous_leader
     service_check gauge event log_record fst snd].

Ltac records_in H :=
  cbv beta iota zeta delta
    [api_url client_token client_token_path tags previous_leader detect_leader
     api scraper_config token_header service_checks gauges events log
     set_api set_api_url set_scraper_config set_client_token set_previous_leader
     service_check gauge event log_record fst snd] in H.

(** Collaborators to run the check with: a Vault that answers on both
    endpoints, a token file, and metrics the token in use may not read. *)
Module Sample.

Definition affirmative (v : py_value) : bool :=
  match v with
  | PyBool b => b
  | PyInt z => negb (z =? 0)%Z
  | PyStr s => (s =? "true") || (s =? "yes") || (s =? "1") || (s =? "y") || (s =? "on")
  | _ => false
  end.

Definition equal (a b : py_value) : bool :=
  match a, b with
  | PyStr x, PyStr y => x =? y
  | _, _ => false
  end.

Definition leader_data : py_value :=
  PyDict [(PyStr "is_self", PyBool true);
          (PyStr "leader_address", PyStr "https://vault-b:8200")].

Definition health_data : py_value :=
  PyDict [(PyStr "cluster_name", PyStr "vault-cluster-1");
          (PyStr "version", PyStr "1.1.0");
          (PyStr "sealed", PyBool false);
          (PyStr "initialized", PyBool true)].

Definition get (url : string) : http_result :=
  if url =? "http://vault:8200/v1/sys/leader" then Response 200 (Json leader_data)
  else if url =? "http://vault:8200/v1/sys/health" then Response 429 (Json health_data)
  else RaisesRequestException.

Definition world : collaborators :=
  {| is_affirmative := affirmative;
     http_get := get;
     api_unreachable_caught := None;
     timeout_text := "10";
     format_collection := fun _ => EmptyString;
     py_equal := equal;
     timestamp := "1546300800.0";
     hostname := "agent-host";
     read_file := fun path => if path =? "/home/vault-sink/token" then Some "s.token" else None;
     process := fun _ => Some "403 Client Error: Forbidden for url: http://vault:8200/v1/sys/metrics" |}.

(** The check of an instance with the URL of version 2 of the API. *)
Definition fresh : check :=
  init world (Some "http://vault:8200/v2") None (Some "/home/vault-sink/token")
    (Some ["instance:foobar"]) (Some (PyBool true)).

(** The same Vault after another node has become the leader. *)
Definition moved : collaborators :=
  {| is_affirmative := affirmative;
     http_get :=
       fun url =>
         if url =? "http://vault:8200/v1/sys/leader"
         then Response 200
                (Json (PyDict [(PyStr "is_self", PyBool false);
                               (PyStr "leader_address", PyStr "https://vault-a:8200")]))
         else get url;
     api_unreachable_caught := None;
     timeout_text := "10";
     format_collection := fun _ => EmptyString;
     py_equal := equal;
     timestamp := "1546300860.0";
     hostname := "agent-host";
     read_file := fun path => if path =? "/home/vault-sink/token" then Some "s.token" else None;
     process := fun _ => None |}.


(** The check of an instance without a token. *)
Definition anonymous : check :=
  init world (Some "http://vault:8200/v1") None None (Some ["instance:foobar"]) None.

(** The checks once [parse_config] has run. *)
Definition ready : check := fst (parse_config world fresh).

Definition anonymous_ready : check := fst (parse_config world anonymous).

End Sample.

End Vault.

(** ** The renderer *)

Section Renderer.

(** [yaml.safe_dump(obj, default_flow_style=False, sort_keys=False)]. *)
Variable safe_dump : py_value -> string.

(** [default_option_example(option_name)], the default an option's name
    stands for. *)
Variable default_option_example : string -> string.

Definition construct_yaml (obj : py_value) : string := safe_dump obj.

(** [value.get('example')]. *)
Definition get_example (v : value_spec) : py_value :=
  match value_example v with
  | Some e => e
  | None => PyNone
  end.

(** The message of [new_error], for [kind] one of [option] and
    [section]. *)
Definition length_error (kind option_name : string) (extra_characters : nat) : string :=
  "Description line length of " ++ kind ++ " `" ++ option_name
    ++ "` was over the limit by " ++ Py.str_nat extra_characters ++ " character"
    ++ (if (1 <? extra_characters)%nat then "s" else EmptyString).

(** The loop over [option['description'].splitlines()].  The source has it
    twice, once with [option] and once with [section] in the message. *)
Fixpoint write_description (kind option_name indent : string)
  (lines : list string) (w : OptionWriter) : OptionWriter :=
  match lines with
  | [] => w
  | line :: rest =>
      let w :=
        if Py.truthy line then
          let line := indent ++ "## " ++ line in
          let w :=
            if (DESCRIPTION_LINE_LENGTH_LIMIT <? String.length line)%nat then
              let extra_characters := String.length line - DESCRIPTION_LINE_LENGTH_LIMIT in
              new_error w (length_error kind option_name extra_characters)
            else w in
          write w [line]
        else write w [indent; "##"] in
      write_description kind option_name indent rest (write w [Py.nl])
  end.

(** The part of the header that follows [optional]. *)
Definition write_default (option_name : string) (example : py_value)
  (w : OptionWriter) : OptionWriter :=
  match example with
  | PyBool b => write w [" - default: "; if b then "true" else "false"]
  | PyInt z => write w [" - default: "; Py.str_int z]
  | PyFloat text => write w [" - default: "; text]
  | PyStr s =>
      if negb (s =? default_option_example option_name)
      then write w [" - default: "; s]
      else w
  | PyNone | PyList _ | PyDict _ => w
  end.

(** The loop over [option_yaml.splitlines()] of a value option. *)
Fixpoint write_example (required : bool) (indent : string)
  (lines : list string) (w : OptionWriter) : OptionWriter :=
  match lines with
  | [] => w
  | line :: rest =>
      let w := write w [indent] in
      let w := if negb required then write w ["# "] else w in
      write_example required indent rest (write w [line; Py.nl])
  end.

(** The loop over [option_yaml.splitlines()] of a section without
    [options]. *)
Fixpoint write_commented (indent : string) (lines : list string)
  (w : OptionWriter) : OptionWriter :=
  match lines with
  | [] => w
  | line :: rest => write_commented indent rest (write w [indent; "# "; line; Py.nl])
  end.

Fixpoint write_option (opt : schema_node) (w : OptionWriter) (indent : string)
  (start_list : bool) {struct opt} : result OptionWriter :=
  match opt with
  | Node option_name (Some value) o_required o_description _ _ _ =>
      required <- getitem "required" o_required ;;
      type_string <- value_type_string value ;;
      let w := write w [indent; "## "; option_name; " - "; type_string; " - ";
                        if required then "required" else "optional"] in
      let example := get_example value in
      let w := if negb required then write_default option_name example w else w in
      let w := write w [Py.nl] in
      let w := write_description "option" option_name indent
                 (Py.splitlines o_description) w in
      let w := write w [indent; "#" ++ Py.nl] in
      let '(option_yaml, indent) :=
        if start_list
        then (construct_yaml (PyList [PyDict [(PyStr option_name, example)]]),
              Py.drop_last2 indent)
        else (construct_yaml (PyDict [(PyStr option_name, example)]), indent) in
      Ok (write_example required indent (Py.splitlines option_yaml) w)
  | Node option_name None _ o_description o_multiple o_options o_example =>
      let w := write_description "section" option_name indent
                 (Py.splitlines o_description) w in
      let w := write w [indent; "#" ++ Py.nl] in
      match o_options with
      | Some options =>
          multiple <- getitem "multiple" o_multiple ;;
          let next_indent := indent ++ "    " in
          let w := write w [indent; option_name; ":"; Py.nl] in
          match options with
          | _ :: _ =>
              (fix loop (i : nat) (options : list schema_node) (w : OptionWriter)
                 {struct options} : result OptionWriter :=
                 match options with
                 | [] => Ok w
                 | opt :: rest =>
                     let w := write w [Py.nl] in
                     w <- (if (i =? 0)%nat && multiple then
                             first_required <- getitem "required" (required opt) ;;
                             if (first_required : bool)
                             then write_option opt w next_indent true
                             else
                               let w := write w [Py.drop_last2 next_indent; "-" ++ Py.nl] in
                               write_option opt w next_indent false
                           else write_option opt w next_indent false) ;;
                     loop (S i) rest w
                 end) 0 options w
          | [] =>
              if multiple
              then Ok (write w [Py.nl; Py.drop_last2 next_indent; "- {}" ++ Py.nl])
              else Ok w
          end
      | None =>
          let example :=
            match o_example with
            | Some e => e
            | None =>
                match o_multiple with
                | Some true => PyList []
                | _ => PyDict []
                end
            end in
          let option_yaml := construct_yaml (PyDict [(PyStr option_name, example)]) in
          Ok (write_commented indent (Py.splitlines option_yaml) w)
      end
  end.

(** The loop of [render] over [enumerate(options, 1)]. *)
Fixpoint write_options (num_options i : nat) (options : list schema_node)
  (w : OptionWriter) : result OptionWriter :=
  match options with
  | [] => Ok w
  | opt :: rest =>
      w <- write_option opt w EmptyString false ;;
      let w := if negb (i =? num_options)%nat then write w [Py.nl] else w in
      write_options num_options (S i) rest w
  end.

(** The body of the loop of [render] over the files: the pair stored under
    [file['example_name']]. *)
Definition render_file (f : file) : result (string * list string) :=
  let options := file_options f in
  let num_options := List.length options in
  w <- write_options num_options 1 options OptionWriter_init ;;
  Ok (contents w, errors w).

(** [files[key] = v] on an [OrderedDict]: a key already there keeps its
    place and takes the new value, a new key goes last. *)
Fixpoint od_set {V : Type} (key : string) (v : V) (d : list (string * V))
  : list (string * V) :=
  match d with
  | [] => [(key, v)]
  | (k, v') :: d' =>
      if k =? key then (key, v) :: d' else (k, v') :: od_set key v d'
  end.

Fixpoint od_get {V : Type} (key : string) (d : list (string * V)) : option V :=
  match d with
  | [] => None
  | (k, v) :: d' => if k =? key then Some v else od_get key d'
  end.

Fixpoint render_from (files : list (string * (string * list string)))
  (spec_files : list file) : result (list (string * (string * list string))) :=
  match spec_files with
  | [] => Ok files
  | f :: rest =>
      r <- render_file f ;;
      render_from (od_set (example_name f) r files) rest
  end.

(** [ExampleConsumer(spec).render()], for [spec_files = spec['files']]. *)
Definition render (spec_files : list file)
  : result (list (string * (string * list string))) :=
  render_from [] spec_files.

(** The loop of a section over [enumerate(options)], the local [fix] of
    [write_option] as a function of its own. *)
Definition write_children (multiple : bool) (next_indent : string)
  : nat -> list schema_node -> OptionWriter -> result OptionWriter :=
  fix loop (i : nat) (options : list schema_node) (w : OptionWriter)
    {struct options} : result OptionWriter :=
    match options with
    | [] => Ok w
    | opt :: rest =>
        let w := write w [Py.nl] in
        w <- (if (i =? 0)%nat && multiple then
                first_required <- getitem "required" (required opt) ;;
                if (first_required : bool)
                then write_option opt w next_indent true
                else
                  let w := write w [Py.drop_last2 next_indent; "-" ++ Py.nl] in
                  write_option opt w next_indent false
              else write_option opt w next_indent false) ;;
        loop (S i) rest w
    end.

(** ** The text alone

    The same traversal with the buffer reduced to its text and the length
    check left out: what the renderer would write if it checked nothing. *)

Definition description_text (indent : string) (lines : list string) : string :=
  Py.join (map (fun line =>
                  (if Py.truthy line then indent ++ "## " ++ line else indent ++ "##")
                    ++ Py.nl) lines).

Definition default_suffix (option_name : string) (example : py_value) : string :=
  match example with
  | PyBool b => " - default: " ++ (if b then "true" else "false")
  | PyInt z => " - default: " ++ Py.str_int z
  | PyFloat text => " - default: " ++ text
  | PyStr s =>
      if negb (s =? default_option_example option_name)
      then " - default: " ++ s
      else EmptyString
  | PyNone | PyList _ | PyDict _ => EmptyString
  end.

Definition example_text (required : bool) (indent : string) (lines : list string) : string :=
  Py.join (map (fun line =>
                  indent ++ (if required then EmptyString else "# ") ++ line ++ Py.nl)
             lines).

Definition commented_text (indent : string) (lines : list string) : string :=
  Py.join (map (fun line => indent ++ "# " ++ line ++ Py.nl) lines).

(** The header line of a value option, without its line feed. *)
Definition header_text (indent option_name type_string : string) (required : bool)
  (example : py_value) : string :=
  indent ++ "## " ++ option_name ++ " - " ++ type_string ++ " - "
    ++ (if required then "required"
        else "optional" ++ default_suffix option_name example).

(** The lines of the serialised example of a value option. *)
Definition example_lines (option_name : string) (example : py_value)
  (start_list : bool) : list string :=
  Py.splitlines
    (if start_list
     then construct_yaml (PyList [PyDict [(PyStr option_name, example)]])
     else construct_yaml (PyDict [(PyStr option_name, example)])).

Fixpoint option_text (opt : schema_node) (indent : string) (start_list : bool)
  {struct opt} : result string :=
  match opt with
  | Node option_name (Some value) o_required o_description _ _ _ =>
      required <- getitem "required" o_required ;;
      type_string <- value_type_string value ;;
      let example := get_example value in
      Ok (header_text indent option_name type_string required example ++ Py.nl
          ++ description_text indent (Py.splitlines o_description)
          ++ indent ++ "#" ++ Py.nl
          ++ example_text required
               (if start_list then Py.drop_last2 indent else indent)
               (example_lines option_name example start_list))
  | Node option_name None _ o_description o_multiple o_options o_example =>
      let head := description_text indent (Py.splitlines o_description)
                    ++ indent ++ "#" ++ Py.nl in
      match o_options with
      | Some options =>
          multiple <- getitem "multiple" o_multiple ;;
          let next_indent := indent ++ "    " in
          let head := head ++ indent ++ option_name ++ ":" ++ Py.nl in
          match options with
          | _ :: _ =>
              body <- (fix loop (i : nat) (options : list schema_node)
                         {struct options} : result string :=
                         match options with
                         | [] => Ok EmptyString
                         | opt :: rest =>
                             t <- (if (i =? 0)%nat && multiple then
                                     first_required <- getitem "required" (required opt) ;;
                                     if (first_required : bool)
                                     then option_text opt next_indent true
                                     else
                                       t <- option_text opt next_indent false ;;
                                       Ok (Py.drop_last2 next_indent ++ "-" ++ Py.nl ++ t)
                                   else option_text opt next_indent false) ;;
                             ts <- loop (S i) rest ;;
                             Ok (Py.nl ++ t ++ ts)
                         end) 0 options ;;
              Ok (head ++ body)
          | [] =>
              Ok (head ++ (if multiple
                           then Py.nl ++ Py.drop_last2 next_indent ++ "- {}" ++ Py.nl
                           else EmptyString))
          end
      | None =>
          let example :=
            match o_example with
            | Some e => e
            | None =>
                match o_multiple with
                | Some true => PyList []
                | _ => PyDict []
                end
            end in
          let option_yaml := construct_yaml (PyDict [(PyStr option_name, example)]) in
          Ok (head ++ commented_text indent (Py.splitlines option_yaml))
      end
  end.

Definition children_text (multiple : bool) (next_indent : string)
  : nat -> list schema_node -> result string :=
  fix loop (i : nat) (options : list schema_node) {struct options} : result string :=
    match options with
    | [] => Ok EmptyString
    | opt :: rest =>
        t <- (if (i =? 0)%nat && multiple then
                first_required <- getitem "required" (required opt) ;;
                if (first_required : bool)
                then option_text opt next_indent true
                else
                  t <- option_text opt next_indent false ;;
                  Ok (Py.drop_last2 next_indent ++ "-" ++ Py.nl ++ t)
              else option_text opt next_indent false) ;;
        ts <- loop (S i) rest ;;
        Ok (Py.nl ++ t ++ ts)
    end.



(** ** Auxiliary notions *)

(** The buffer [w] after [text] was written and [diagnostics] recorded. *)
Definition extend (w : OptionWriter) (text : string) (diagnostics : list string)
  : OptionWriter :=
  {| writer := writer w ++ text; errors := errors w ++ diagnostics |}.

(** The diagnostics of one description, at [indent]. *)
Definition description_errors (kind option_name indent : string)
  (lines : list string) : list string :=
  flat_map (fun line =>
              let rendered := indent ++ "## " ++ line in
              if Py.truthy line
                 && (DESCRIPTION_LINE_LENGTH_LIMIT <? String.length rendered)%nat
              then [length_error kind option_name
                      (String.length rendered - DESCRIPTION_LINE_LENGTH_LIMIT)]
              else []) lines.

(** What a section with [options] writes before its children: its
    description, the separator and the line [<name>:]. *)
Definition section_head (indent option_name description : string) : string :=
  description_text indent (Py.splitlines description) ++ indent ++ "#" ++ Py.nl
    ++ indent ++ option_name ++ ":" ++ Py.nl.

(** The keys of an [OrderedDict] after [key] is assigned: unchanged when
    [key] is among them, [key] added last otherwise. *)
Definition keys_after (keys : list string) (key : string) : list string :=
  if existsb (String.eqb key) keys then keys else (keys ++ [key])%list.

(** The names of a list in the order each is first seen. *)
Definition first_seen (names : list string) : list string :=
  fold_left keys_after names [].

(** [option] for a value option, [section] for a section. *)
Definition kind_of (opt : schema_node) : string :=
  match value opt with
  | Some _ => "option"
  | None => "section"
  end.

(** A node that renders without a [KeyError] and has no child option. *)
Definition childless (opt : schema_node) : bool :=
  match value opt with
  | Some v =>
      match required opt, value_type_string v with
      | Some _, Ok _ => true
      | _, _ => false
      end
  | None =>
      match options opt with
      | None => true
      | Some _ => false
      end
  end.

(** The shape of a diagnostic. *)
Definition is_diagnostic (s : string) : Prop :=
  exists (kind option_name : string) (n : nat),
    (kind = "option" \/ kind = "section") /\ (1 <= n)%nat /\
    s = "Description line length of " ++ kind ++ " `" ++ option_name
          ++ "` was over the limit by " ++ Py.str_nat n ++ " character"
          ++ (if (1 <? n)%nat then "s" else EmptyString).

(** The text of a buffer after [write_option] is its text before, followed
    by [option_text]; both raise the same [KeyError]. *)
Definition text_agrees (opt : schema_node) : Prop :=
  forall w indent start_list,
    result_map writer (write_option opt w indent start_list) =
    result_map (append (writer w)) (option_text opt indent start_list).

(** What [write_option] adds to the diagnostics is a list of messages of the
    fixed shape. *)
Definition errors_shaped (opt : schema_node) : Prop :=
  forall w indent start_list w',
    write_option opt w indent start_list = Ok w' ->
    exists es, errors w' = (errors w ++ es)%list /\ Forall is_diagnostic es.

(** ** Notions for the further properties *)

(** [r] replayed on the buffer [w]: what [r] holds is added to [w]. *)
Definition replay (w : OptionWriter) (r : result OptionWriter) : result OptionWriter :=
  x <- r ;; Ok (extend w (writer x) (errors x)).

(** Rendering on any buffer is rendering on an empty one, replayed. *)
Definition framed (opt : schema_node) : Prop :=
  forall w indent start_list,
    write_option opt w indent start_list =
    replay w (write_option opt OptionWriter_init indent start_list).

(** [sep.join(texts)]. *)
Fixpoint sep_join (sep : string) (texts : list string) : string :=
  match texts with
  | [] => EmptyString
  | [t] => t
  | t :: rest => t ++ sep ++ sep_join sep rest
  end.



(** No character of [s] breaks a line. *)
Fixpoint plain (s : string) : bool :=
  match s with
  | EmptyString => true
  | String c s' => negb (Py.is_linebreak c) && plain s'
  end.

(** The text [option_text] gives ends with a line feed. *)
Definition ends_lines (opt : schema_node) : Prop :=
  forall indent start_list text,
    option_text opt indent start_list = Ok text ->
    exists body, text = body ++ Py.nl.

(** Induction on a schema node, with the property assumed of every child. *)
Section SchemaInduction.
Variable P : schema_node -> Prop.
Hypothesis step :
  forall n v r d m os e,
    match os with Some l => Forall P l | None => True end ->
    P (Node n v r d m os e).

Fixpoint schema_node_induction (opt : schema_node) : P opt :=
  match opt with
  | Node n v r d m os e =>
      step n v r d m os e
        (match os return match os with Some l => Forall P l | None => True end with
         | Some l =>
             (fix children (l : list schema_node) : Forall P l :=
                match l with
                | [] => Forall_nil P
                | x :: xs => Forall_cons x (schema_node_induction x) (children xs)
                end) l
         | None => I
         end)
  end.
End SchemaInduction.

(** Both sides of a goal on texts, appends nested to the right; the
    database [text] holds the laws of [append]. *)
Create Rewrite HintDb text.

Ltac string_assoc :=
  unfold Py.nl;
  repeat first [ progress autorewrite with text
               | progress cbn [append Py.join] ];
  try reflexivity.

(** ** Strings and the buffer *)

Lemma append_nil_r (s : string) : s ++ EmptyString = s.
Proof. induction s as [|c s IH]; simpl; [reflexivity | now rewrite IH]. Qed.

Lemma append_assoc (s t u : string) : (s ++ t) ++ u = s ++ t ++ u.
Proof. induction s as [|c s IH]; simpl; [reflexivity | now rewrite IH]. Qed.

Lemma length_append (s t : string) :
  String.length (s ++ t) = String.length s + String.length t.
Proof. induction s as [|c s IH]; simpl; [reflexivity | now rewrite IH]. Qed.

Lemma take_append (s t : string) : Py.take (String.length s) (s ++ t) = s.
Proof. induction s as [|c s IH]; simpl; [now destruct t | now rewrite IH]. Qed.

Lemma drop_last2_step (indent : string) :
  Py.drop_last2 (indent ++ "    ") = indent ++ "  ".
Proof.
  unfold Py.drop_last2.
  rewrite length_append. simpl String.length.
  replace (String.length indent + 4 - 2) with (String.length (indent ++ "  "))
    by (rewrite length_append; simpl; lia).
  change (indent ++ "    ") with (indent ++ "  " ++ "  ").
  rewrite <- append_assoc. apply take_append.
Qed.

Lemma fold_append (strings : list string) (s : string) :
  fold_left append strings s = s ++ Py.join strings.
Proof.
  revert s. induction strings as [|x xs IH]; intros s; simpl.
  - now rewrite append_nil_r.
  - rewrite IH. apply append_assoc.
Qed.

Lemma write_extend (w : OptionWriter) (strings : list string) :
  write w strings = extend w (Py.join strings) [].
Proof. unfold write, extend. now rewrite fold_append, app_nil_r. Qed.

Lemma new_error_extend (w : OptionWriter) (s : string) :
  new_error w s = extend w EmptyString [s].
Proof. unfold new_error, extend. now rewrite append_nil_r. Qed.

Lemma extend_extend (w : OptionWriter) t1 e1 t2 e2 :
  extend (extend w t1 e1) t2 e2 = extend w (t1 ++ t2) (e1 ++ e2).
Proof. unfold extend; simpl. now rewrite append_assoc, app_assoc. Qed.

Lemma extend_nil (w : OptionWriter) : extend w EmptyString [] = w.
Proof. destruct w; unfold extend; simpl. now rewrite append_nil_r, app_nil_r. Qed.

#[local] Hint Rewrite append_assoc append_nil_r : text.

(** ** The loops in closed form *)

Lemma write_description_extend kind option_name indent lines w :
  write_description kind option_name indent lines w =
  extend w (description_text indent lines)
           (description_errors kind option_name indent lines).
Proof.
  revert w. induction lines as [|line rest IH]; intros w.
  - simpl. now rewrite extend_nil.
  - cbn [write_description]. rewrite IH.
    unfold description_text, description_errors.
    cbn [map flat_map Py.join].
    destruct (Py.truthy line); cbn [andb].
    + destruct (DESCRIPTION_LINE_LENGTH_LIMIT <? String.length (indent ++ "## " ++ line))%nat.
      * rewrite new_error_extend, !write_extend, !extend_extend.
        f_equal; string_assoc.
      * rewrite !write_extend, !extend_extend.
        f_equal; string_assoc.
    + rewrite !write_extend, !extend_extend.
      f_equal; string_assoc.
Qed.

Lemma write_default_extend option_name example w :
  write_default option_name example w =
  extend w (default_suffix option_name example) [].
Proof.
  unfold write_default, default_suffix.
  destruct example as [|b|z|t|s|l|d]; try (now rewrite extend_nil);
    try (rewrite write_extend; f_equal; string_assoc).
  destruct (negb (s =? default_option_example option_name));
    [reflexivity | now rewrite extend_nil].
Qed.

Lemma write_example_extend required indent lines w :
  write_example required indent lines w =
  extend w (example_text required indent lines) [].
Proof.
  revert w. induction lines as [|line rest IH]; intros w.
  - simpl. now rewrite extend_nil.
  - cbn [write_example]. rewrite IH. unfold example_text. cbn [map Py.join].
    destruct required; cbn [negb].
    + rewrite !write_extend, !extend_extend.
      f_equal; string_assoc.
    + rewrite !write_extend, !extend_extend.
      f_equal; string_assoc.
Qed.

Lemma write_commented_extend indent lines w :
  write_commented indent lines w = extend w (commented_text indent lines) [].
Proof.
  revert w. induction lines as [|line rest IH]; intros w.
  - simpl. now rewrite extend_nil.
  - cbn [write_commented]. rewrite IH. unfold commented_text. cbn [map Py.join].
    rewrite !write_extend, !extend_extend.
    f_equal; string_assoc.
Qed.

(** ** The renderer in closed form *)

Lemma write_option_value option_name v r d m os e w indent start_list t :
  value_type_string v = Ok t ->
  write_option (Node option_name (Some v) (Some r) d m os e) w indent start_list =
  Ok (extend w
        (header_text indent option_name t r (get_example v) ++ Py.nl
           ++ description_text indent (Py.splitlines d)
           ++ indent ++ "#" ++ Py.nl
           ++ example_text r (if start_list then Py.drop_last2 indent else indent)
                (example_lines option_name (get_example v) start_list))
        (description_errors "option" option_name indent (Py.splitlines d))).
Proof.
  intros Ht. cbn [write_option getitem bind]. rewrite Ht. cbn [bind].
  unfold example_lines, header_text.
  destruct start_list, r; cbn [negb];
    rewrite ?write_default_extend, ?write_example_extend, ?write_description_extend,
      ?write_extend, ?extend_extend;
    do 2 f_equal; rewrite ?app_nil_r; string_assoc.
Qed.

Lemma write_option_section option_name r d e w indent start_list multiple first rest :
  write_option (Node option_name None r d (Some multiple) (Some (first :: rest)) e)
    w indent start_list =
  write_children multiple (indent ++ "    ") 0 (first :: rest)
    (extend w
       (description_text indent (Py.splitlines d) ++ indent ++ "#" ++ Py.nl
          ++ indent ++ option_name ++ ":" ++ Py.nl)
       (description_errors "section" option_name indent (Py.splitlines d))).
Proof.
  replace (extend w _ _) with
    (write (write (write_description "section" option_name indent (Py.splitlines d) w)
              [indent; "#" ++ Py.nl]) [indent; option_name; ":"; Py.nl]).
  - reflexivity.
  - rewrite write_description_extend, !write_extend, !extend_extend.
    f_equal; rewrite ?app_nil_r; string_assoc.
Qed.

Lemma write_option_empty option_name r d e w indent start_list multiple :
  write_option (Node option_name None r d (Some multiple) (Some []) e)
    w indent start_list =
  Ok (extend w
        (description_text indent (Py.splitlines d) ++ indent ++ "#" ++ Py.nl
           ++ indent ++ option_name ++ ":" ++ Py.nl
           ++ (if multiple
               then Py.nl ++ Py.drop_last2 (indent ++ "    ") ++ "- {}" ++ Py.nl
               else EmptyString))
        (description_errors "section" option_name indent (Py.splitlines d))).
Proof.
  cbn [write_option getitem bind].
  destruct multiple;
    rewrite write_description_extend, !write_extend, !extend_extend;
    do 2 f_equal; rewrite ?app_nil_r; string_assoc.
Qed.

Lemma write_option_described option_name r d m e w indent start_list :
  write_option (Node option_name None r d m None e) w indent start_list =
  Ok (extend w
        (description_text indent (Py.splitlines d) ++ indent ++ "#" ++ Py.nl
           ++ commented_text indent
                (Py.splitlines
                   (construct_yaml
                      (PyDict [(PyStr option_name,
                                match e with
                                | Some x => x
                                | None => match m with
                                          | Some true => PyList []
                                          | _ => PyDict []
                                          end
                                end)]))))
        (description_errors "section" option_name indent (Py.splitlines d))).
Proof.
  cbn [write_option].
  rewrite write_commented_extend, write_description_extend, !write_extend, !extend_extend.
  do 2 f_equal; rewrite ?app_nil_r; string_assoc.
Qed.

Lemma option_text_section option_name r d e indent start_list multiple first rest :
  option_text (Node option_name None r d (Some multiple) (Some (first :: rest)) e)
    indent start_list =
  (body <- children_text multiple (indent ++ "    ") 0 (first :: rest) ;;
   Ok ((description_text indent (Py.splitlines d) ++ indent ++ "#" ++ Py.nl)
         ++ indent ++ option_name ++ ":" ++ Py.nl ++ body)).
Proof.
  change (option_text (Node option_name None r d (Some multiple) (Some (first :: rest)) e)
            indent start_list)
    with (body <- children_text multiple (indent ++ "    ") 0 (first :: rest) ;;
          Ok (((description_text indent (Py.splitlines d) ++ indent ++ "#" ++ Py.nl)
                 ++ indent ++ option_name ++ ":" ++ Py.nl) ++ body)).
  destruct (children_text multiple (indent ++ "    ") 0 (first :: rest)); cbn [bind];
    [f_equal; string_assoc | reflexivity].
Qed.

Lemma write_children_cons multiple next_indent i opt rest w :
  write_children multiple next_indent i (opt :: rest) w =
  (w <- (if (i =? 0)%nat && multiple then
           first_required <- getitem "required" (required opt) ;;
           if (first_required : bool)
           then write_option opt (write w [Py.nl]) next_indent true
           else write_option opt
                  (write (write w [Py.nl]) [Py.drop_last2 next_indent; "-" ++ Py.nl])
                  next_indent false
         else write_option opt (write w [Py.nl]) next_indent false) ;;
   write_children multiple next_indent (S i) rest w).
Proof. reflexivity. Qed.

Lemma children_text_cons multiple next_indent i opt rest :
  children_text multiple next_indent i (opt :: rest) =
  (t <- (if (i =? 0)%nat && multiple then
           first_required <- getitem "required" (required opt) ;;
           if (first_required : bool)
           then option_text opt next_indent true
           else
             t <- option_text opt next_indent false ;;
             Ok (Py.drop_last2 next_indent ++ "-" ++ Py.nl ++ t)
         else option_text opt next_indent false) ;;
   ts <- children_text multiple next_indent (S i) rest ;;
   Ok (Py.nl ++ t ++ ts)).
Proof. reflexivity. Qed.

(** ** The text does not depend on the length check *)

Lemma result_map_inv {A B C : Type} (f : A -> C) (g : B -> C)
  (ra : result A) (rb : result B) :
  result_map f ra = result_map g rb ->
  (exists a b, ra = Ok a /\ rb = Ok b /\ f a = g b) \/
  (exists key, ra = KeyError key /\ rb = KeyError key).
Proof.
  destruct ra as [a|ka], rb as [b|kb]; cbn; intros H; try discriminate.
  - left. exists a, b. repeat split. now injection H.
  - right. exists ka. injection H as ->. now split.
Qed.

Lemma write_children_text multiple next_indent options :
  Forall text_agrees options ->
  forall i w,
    result_map writer (write_children multiple next_indent i options w) =
    result_map (append (writer w)) (children_text multiple next_indent i options).
Proof.
  induction 1 as [|opt rest Hopt _ IH]; intros i w.
  - cbn. now rewrite append_nil_r.
  - rewrite write_children_cons, children_text_cons.
    assert (Hnl : forall w0 sl t w',
               option_text opt next_indent sl = Ok t ->
               writer w' = writer w0 ++ t ->
               result_map writer (write_children multiple next_indent (S i) rest w') =
               result_map (append (writer w0))
                 (ts <- children_text multiple next_indent (S i) rest ;; Ok (t ++ ts))).
    { intros w0 sl t w' _ Hw'. rewrite IH, Hw'.
      destruct (children_text multiple next_indent (S i) rest); cbn;
        [now rewrite append_assoc | reflexivity]. }
    destruct ((i =? 0)%nat && multiple).
    + destruct (required opt) as [[|]|]; cbn [getitem bind]; [| |reflexivity].
      * destruct (result_map_inv _ _ _ _ (Hopt (write w [Py.nl]) next_indent true))
          as [(w' & t & -> & Ht & Hw')|(key & -> & Ht)]; rewrite Ht; cbn [bind];
          [|reflexivity].
        rewrite (Hnl _ _ _ _ Ht Hw'), write_extend. cbn [extend writer].
        destruct (children_text multiple next_indent (S i) rest); cbn;
          [f_equal; string_assoc | reflexivity].
      * destruct (result_map_inv _ _ _ _
                    (Hopt (write (write w [Py.nl])
                             [Py.drop_last2 next_indent; "-" ++ Py.nl]) next_indent false))
          as [(w' & t & -> & Ht & Hw')|(key & -> & Ht)]; rewrite Ht; cbn [bind];
          [|reflexivity].
        rewrite (Hnl _ _ _ _ Ht Hw'), !write_extend, extend_extend. cbn [extend writer].
        destruct (children_text multiple next_indent (S i) rest); cbn;
          [f_equal; string_assoc | reflexivity].
    + destruct (result_map_inv _ _ _ _ (Hopt (write w [Py.nl]) next_indent false))
        as [(w' & t & -> & Ht & Hw')|(key & -> & Ht)]; rewrite Ht; cbn [bind];
        [|reflexivity].
      rewrite (Hnl _ _ _ _ Ht Hw'), write_extend. cbn [extend writer].
      destruct (children_text multiple next_indent (S i) rest); cbn;
        [f_equal; string_assoc | reflexivity].
Qed.

Lemma write_option_text (opt : schema_node) : text_agrees opt.
Proof.
  induction opt as [n v r d m os e IH] using schema_node_induction.
  intros w indent start_list.
  destruct v as [v|].
  - destruct r as [r|]; [|reflexivity].
    destruct (value_type_string v) as [t|key] eqn:Ht.
    + rewrite (write_option_value _ _ _ _ _ _ _ _ _ _ _ Ht).
      cbn [option_text getitem bind]. rewrite Ht. reflexivity.
    + cbn [write_option option_text getitem bind]. rewrite Ht. reflexivity.
  - destruct os as [[|first rest]|].
    + destruct m as [multiple|]; [|reflexivity].
      rewrite write_option_empty. cbn. f_equal. string_assoc.
    + destruct m as [multiple|]; [|reflexivity].
      rewrite write_option_section, option_text_section.
      rewrite (write_children_text _ _ _ IH). cbn [extend writer].
      destruct (children_text multiple (indent ++ "    ") 0 (first :: rest)); cbn;
        [f_equal; string_assoc | reflexivity].
    + rewrite write_option_described. cbn. f_equal. string_assoc.
Qed.



(** ** Diagnostics *)

Lemma description_errors_shape kind option_name indent lines :
  kind = "option" \/ kind = "section" ->
  Forall is_diagnostic (description_errors kind option_name indent lines).
Proof.
  intros Hkind. unfold description_errors.
  induction lines as [|line rest IH]; cbn [flat_map]; [constructor|].
  apply Forall_app; split; [|exact IH].
  destruct (Py.truthy line); cbn [andb]; [|constructor].
  destruct (DESCRIPTION_LINE_LENGTH_LIMIT <? String.length (indent ++ "## " ++ line))%nat
    eqn:Hlong; [|constructor].
  apply Nat.ltb_lt in Hlong.
  constructor; [|constructor].
  exists kind, option_name,
    (String.length (indent ++ "## " ++ line) - DESCRIPTION_LINE_LENGTH_LIMIT).
  repeat split; [exact Hkind | lia].
Qed.

Lemma write_children_shaped multiple next_indent options :
  Forall errors_shaped options ->
  forall i w w',
    write_children multiple next_indent i options w = Ok w' ->
    exists es, errors w' = (errors w ++ es)%list /\ Forall is_diagnostic es.
Proof.
  induction 1 as [|opt rest Hopt _ IH]; intros i w w' Hrun.
  - injection Hrun as <-. exists []. split; [now rewrite app_nil_r | constructor].
  - rewrite write_children_cons in Hrun.
    assert (Hstep : forall w0 sl,
               errors w0 = errors w ->
               (w1 <- write_option opt w0 next_indent sl ;;
                write_children multiple next_indent (S i) rest w1) = Ok w' ->
               exists es, errors w' = (errors w ++ es)%list /\ Forall is_diagnostic es).
    { intros w0 sl Hw0 Hrun0.
      destruct (write_option opt w0 next_indent sl) as [w1|] eqn:H1; [|discriminate].
      cbn [bind] in Hrun0.
      destruct (Hopt _ _ _ _ H1) as (es1 & He1 & Hs1).
      destruct (IH _ _ _ Hrun0) as (es2 & He2 & Hs2).
      exists (es1 ++ es2)%list. split.
      - now rewrite He2, He1, Hw0, app_assoc.
      - apply Forall_app; now split. }
    destruct ((i =? 0)%nat && multiple).
    + destruct (required opt) as [[|]|]; cbn [getitem bind] in Hrun; [| |discriminate];
        eapply Hstep; try exact Hrun; reflexivity.
    + eapply Hstep; try exact Hrun; reflexivity.
Qed.

Lemma write_option_shaped (opt : schema_node) : errors_shaped opt.
Proof.
  induction opt as [n v r d m os e IH] using schema_node_induction.
  intros w indent start_list w' Hrun.
  destruct v as [v|].
  - destruct r as [r|]; [|discriminate].
    destruct (value_type_string v) as [t|key] eqn:Ht.
    + rewrite (write_option_value _ _ _ _ _ _ _ _ _ _ _ Ht) in Hrun.
      injection Hrun as <-. eexists; split; [reflexivity|].
      apply description_errors_shape; now left.
    + cbn [write_option getitem bind] in Hrun. rewrite Ht in Hrun. discriminate.
  - destruct os as [[|first rest]|].
    + destruct m as [multiple|]; [|discriminate].
      rewrite write_option_empty in Hrun. injection Hrun as <-.
      eexists; split; [reflexivity|]. apply description_errors_shape; now right.
    + destruct m as [multiple|]; [|discriminate].
      rewrite write_option_section in Hrun.
      destruct (write_children_shaped _ _ _ IH _ _ _ Hrun) as (es & He & Hs).
      cbn [extend errors] in He.
      exists (description_errors "section" n indent (Py.splitlines d) ++ es)%list. split.
      * now rewrite He, app_assoc.
      * apply Forall_app; split; [apply description_errors_shape; now right | exact Hs].
    + rewrite write_option_described in Hrun. injection Hrun as <-.
      eexists; split; [reflexivity|]. apply description_errors_shape; now right.
Qed.

Lemma write_option_own_errors opt w indent start_list w' :
  write_option opt w indent start_list = Ok w' ->
  exists es,
    errors w' =
    (errors w
       ++ description_errors (kind_of opt) (name opt) indent
            (Py.splitlines (description opt))
       ++ es)%list
    /\ Forall is_diagnostic es.
Proof.
  destruct opt as [n v r d m os e]. unfold kind_of.
  cbn [value name description]. intros Hrun.
  destruct v as [v|].
  - destruct r as [r|]; [|discriminate].
    destruct (value_type_string v) as [t|key] eqn:Ht.
    + rewrite (write_option_value _ _ _ _ _ _ _ _ _ _ _ Ht) in Hrun.
      injection Hrun as <-. exists []. now rewrite app_nil_r.
    + cbn [write_option getitem bind] in Hrun. rewrite Ht in Hrun. discriminate.
  - destruct os as [[|first rest]|].
    + destruct m as [multiple|]; [|discriminate].
      rewrite write_option_empty in Hrun. injection Hrun as <-.
      exists []. now rewrite app_nil_r.
    + destruct m as [multiple|]; [|discriminate].
      rewrite write_option_section in Hrun.
      assert (Hall : Forall errors_shaped (first :: rest))
        by (apply Forall_forall; intros x _; apply write_option_shaped).
      destruct (write_children_shaped _ _ _ Hall _ _ _ Hrun) as (es & He & Hs).
      cbn [extend errors] in He.
      exists es. split; [now rewrite He, app_assoc | exact Hs].
    + rewrite write_option_described in Hrun. injection Hrun as <-.
      exists []. now rewrite app_nil_r.
Qed.

Lemma childless_errors opt indent start_list :
  childless opt = true ->
  result_map errors (write_option opt OptionWriter_init indent start_list) =
  Ok (description_errors (kind_of opt) (name opt) indent
        (Py.splitlines (description opt))).
Proof.
  destruct opt as [n v r d m os e]. unfold childless, kind_of. cbn [value required options name description].
  destruct v as [v|].
  - destruct r as [r|]; [|discriminate].
    destruct (value_type_string v) as [t|] eqn:Ht; [|discriminate].
    intros _. now rewrite (write_option_value _ _ _ _ _ _ _ _ _ _ _ Ht).
  - destruct os; [discriminate|]. intros _. now rewrite write_option_described.
Qed.

(** C2, as the code has it.  The limit of 120 characters is that of the
    line as written, [## ] and indentation included.  For an option rendered
    at the top level that has no child option and whose description is the
    single line [line]: up to 117 characters there is no diagnostic; 117 + k
    characters, for k at least 1, give exactly one diagnostic, which reports
    k characters, so 118 reports [1 character] and 120 reports
    [3 characters].  The diagnostics of an option start with those of its
    own description, under its own kind and name, before those of its
    children.  Every diagnostic of every option has the shape
    [Description line length of <kind> `<name>` was over the limit by <N>
    character(s)], with kind [option] or [section] and the final [s] exactly
    when N exceeds 1. *)
Theorem description_line_limit :
  (forall opt line,
      childless opt = true ->
      Py.splitlines (description opt) = [line] ->
      String.length line <= 117 ->
      result_map errors (write_option opt OptionWriter_init EmptyString false) = Ok [])
  /\ (forall opt line k,
        childless opt = true ->
        Py.splitlines (description opt) = [line] ->
        String.length line = 117 + S k ->
        result_map errors (write_option opt OptionWriter_init EmptyString false) =
        Ok [length_error (kind_of opt) (name opt) (S k)])
  /\ (forall kind option_name,
        length_error kind option_name 1 =
        "Description line length of " ++ kind ++ " `" ++ option_name
          ++ "` was over the limit by 1 character")
  /\ (forall kind option_name,
        length_error kind option_name 3 =
        "Description line length of " ++ kind ++ " `" ++ option_name
          ++ "` was over the limit by 3 characters")
  /\ (forall opt w indent start_list w',
        write_option opt w indent start_list = Ok w' ->
        exists es,
          errors w' =
          (errors w
             ++ description_errors (kind_of opt) (name opt) indent
                  (Py.splitlines (description opt))
             ++ es)%list)
  /\ (forall n v r d, kind_of (ValueOption n r v d) = "option")
  /\ (forall n d m os e, kind_of (SectionOption n d m os e) = "section")
  /\ (forall opt w indent start_list w',
        write_option opt w indent start_list = Ok w' ->
        exists es, errors w' = (errors w ++ es)%list /\ Forall is_diagnostic es).
Proof.
  split; [|split; [|split; [|split; [|split; [|split; [|split]]]]]].
  - intros opt line Hleaf Hline Hlen.
    rewrite (childless_errors _ _ _ Hleaf), Hline.
    unfold description_errors. cbn [flat_map].
    replace (DESCRIPTION_LINE_LENGTH_LIMIT <? String.length (EmptyString ++ "## " ++ line))%nat
      with false; [now rewrite andb_false_r|].
    symmetry. apply Nat.ltb_ge. cbn [append String.length].
    unfold DESCRIPTION_LINE_LENGTH_LIMIT. lia.
  - intros opt line k Hleaf Hline Hlen.
    rewrite (childless_errors _ _ _ Hleaf), Hline.
    unfold description_errors. cbn [flat_map].
    replace (Py.truthy line) with true by (destruct line; [discriminate | reflexivity]).
    replace (DESCRIPTION_LINE_LENGTH_LIMIT <? String.length (EmptyString ++ "## " ++ line))%nat
      with true.
    + cbn [andb app append String.length]. rewrite Hlen.
      unfold DESCRIPTION_LINE_LENGTH_LIMIT.
      replace (S (S (S (117 + S k))) - 120) with (S k) by lia. reflexivity.
    + symmetry. apply Nat.ltb_lt. cbn [append String.length].
      unfold DESCRIPTION_LINE_LENGTH_LIMIT. lia.
  - reflexivity.
  - reflexivity.
  - intros opt w indent start_list w' Hrun.
    destruct (write_option_own_errors _ _ _ _ _ Hrun) as (es & He & _).
    now exists es.
  - reflexivity.
  - reflexivity.
  - apply write_option_shaped.
Qed.

(** ** The type descriptor *)

(** C7.  [value_type_string] returns a text for every value whose [items]
    are there when its type is [array], and: [object] gives [mapping];
    [array] of [object] gives [list of mappings]; [array] of [array] gives
    [list of lists]; [array] of any other item type T gives [list of Ts];
    any other type is returned as it is.  So an array of [integer] is a
    [list of integers], an [object] a [mapping] and a [string] a [string]. *)
Theorem value_type_string_cases :
  (forall v, (value_type v = "array" -> value_items v <> None) ->
             exists s, value_type_string v = Ok s)
  /\ (forall v, value_type v = "object" -> value_type_string v = Ok "mapping")
  /\ (forall v items,
        value_type v = "array" -> value_items v = Some items ->
        items_type items = "object" ->
        value_type_string v = Ok "list of mappings")
  /\ (forall v items,
        value_type v = "array" -> value_items v = Some items ->
        items_type items = "array" ->
        value_type_string v = Ok "list of lists")
  /\ (forall v items,
        value_type v = "array" -> value_items v = Some items ->
        items_type items <> "object" -> items_type items <> "array" ->
        value_type_string v = Ok ("list of " ++ items_type items ++ "s"))
  /\ (forall v,
        value_type v <> "object" -> value_type v <> "array" ->
        value_type_string v = Ok (value_type v))
  /\ (forall example,
        value_type_string
          {| value_type := "array"; value_items := Some {| items_type := "integer" |};
             value_example := example |} = Ok "list of integers")
  /\ (forall items example,
        value_type_string
          {| value_type := "object"; value_items := items; value_example := example |}
        = Ok "mapping")
  /\ (forall items example,
        value_type_string
          {| value_type := "string"; value_items := items; value_example := example |}
        = Ok "string").
Proof.
  unfold value_type_string.
  repeat split.
  - intros v Hitems.
    destruct (String.eqb_spec (value_type v) "object"); [now eexists|].
    destruct (String.eqb_spec (value_type v) "array") as [Harr|]; [|now eexists].
    destruct (value_items v) as [items|]; [|now destruct (Hitems Harr)].
    cbn [getitem bind].
    destruct (items_type items =? "object"); [now eexists|].
    destruct (items_type items =? "array"); now eexists.
  - intros v ->. reflexivity.
  - intros v items -> -> Hobj. cbn. now rewrite Hobj.
  - intros v items -> -> Harr. cbn. now rewrite Harr.
  - intros v items -> -> Hobj Harr. cbn.
    apply String.eqb_neq in Hobj, Harr. now rewrite Hobj, Harr.
  - intros v Hobj Harr.
    apply String.eqb_neq in Hobj, Harr. now rewrite Hobj, Harr.
Qed.

(** ** End to end *)

(** C1.  When the dump of [{port: 8125}] is the line [port: 8125], the
    rendering of one file that holds the single required option [port], of
    type [integer], with example 8125 and description [The port to use.], is
    the four lines below with no diagnostic; with [required] false, the header
    reads [optional - default: 8125] and the example line is commented
    out. *)
Theorem port_end_to_end (key : string) :
  let port required :=
    ValueOption "port" required
      {| value_type := "integer"; value_items := None;
         value_example := Some (PyInt 8125) |}
      "The port to use." in
  safe_dump (PyDict [(PyStr "port", PyInt 8125)]) = "port: 8125" ++ Py.nl ->
  render [ {| example_name := key; file_options := [port true] |} ] =
  Ok [(key,
       ("## port - integer - required" ++ Py.nl
          ++ "## The port to use." ++ Py.nl
          ++ "#" ++ Py.nl
          ++ "port: 8125" ++ Py.nl,
        []))]
  /\ render [ {| example_name := key; file_options := [port false] |} ] =
     Ok [(key,
          ("## port - integer - optional - default: 8125" ++ Py.nl
             ++ "## The port to use." ++ Py.nl
             ++ "#" ++ Py.nl
             ++ "# port: 8125" ++ Py.nl,
           []))].
Proof.
  intros port Hdump.
  unfold render, render_from, render_file, port, ValueOption.
  cbn [file_options List.length write_options write_option getitem bind
       value_type_string value_type String.eqb Ascii.eqb Bool.eqb get_example
       value_example negb write_default construct_yaml].
  unfold construct_yaml. rewrite Hdump. split; reflexivity.
Qed.

(** ** A first child without [required] *)

(** C10.  In a section with [multiple] true and at least one option,
    [write_option] reads [required] of the first child whatever it is: when
    the key is missing, as in a child that is itself a section, rendering
    raises [KeyError] for [required] and gives no output; hence a rendering
    that returns had a first child carrying the key. *)
Theorem multiple_first_child_needs_required :
  (forall n r d e first rest w indent start_list,
      required first = None ->
      write_option (Node n None r d (Some true) (Some (first :: rest)) e)
        w indent start_list = KeyError "required")
  /\ (forall n d e cn cd cm cos ce rest w indent start_list,
        write_option
          (SectionOption n d (Some true)
             (Some (SectionOption cn cd cm cos ce :: rest)) e)
          w indent start_list = KeyError "required")
  /\ (forall n r d e first rest w indent start_list w',
        write_option (Node n None r d (Some true) (Some (first :: rest)) e)
          w indent start_list = Ok w' ->
        exists b, required first = Some b).
Proof.
  assert (H : forall n r d e first rest w indent start_list,
             required first = None ->
             write_option (Node n None r d (Some true) (Some (first :: rest)) e)
               w indent start_list = KeyError "required").
  { intros n r d e first rest w indent start_list Hnone.
    rewrite write_option_section, write_children_cons.
    cbn [Nat.eqb andb]. now rewrite Hnone. }
  split; [|split].
  - exact H.
  - intros. now apply H.
  - intros n r d e first rest w indent start_list w' Hrun.
    destruct (required first) as [b|] eqn:Hreq; [now exists b|].
    rewrite (H _ _ _ _ _ _ _ _ _ Hreq) in Hrun. discriminate.
Qed.

(** ** Value options *)

(** C5.  The header of an optional value option ends, after [optional],
    with a suffix that is [ - default: ] followed by [true] or [false] for a
    boolean example, by the decimal text for an integer, by the text of the
    number for a float, by the string itself for a string other than the
    default its name stands for; the suffix is empty for a string equal to
    that default, for a mapping, for a sequence and when there is no
    example. *)
Theorem optional_header_default n v d t w indent start_list :
  value_type_string v = Ok t ->
  exists suffix,
    result_map writer (write_option (ValueOption n false v d) w indent start_list) =
    Ok (writer w
          ++ indent ++ "## " ++ n ++ " - " ++ t ++ " - optional" ++ suffix ++ Py.nl
          ++ description_text indent (Py.splitlines d)
          ++ indent ++ "#" ++ Py.nl
          ++ example_text false (if start_list then Py.drop_last2 indent else indent)
               (example_lines n (get_example v) start_list))
    /\ (forall b, value_example v = Some (PyBool b) ->
                  suffix = " - default: " ++ (if b then "true" else "false"))
    /\ (forall z, value_example v = Some (PyInt z) ->
                  suffix = " - default: " ++ Py.str_int z)
    /\ (forall text, value_example v = Some (PyFloat text) ->
                     suffix = " - default: " ++ text)
    /\ (forall s, value_example v = Some (PyStr s) ->
                  s <> default_option_example n ->
                  suffix = " - default: " ++ s)
    /\ (value_example v = Some (PyStr (default_option_example n)) ->
        suffix = EmptyString)
    /\ (forall l, value_example v = Some (PyList l) -> suffix = EmptyString)
    /\ (forall l, value_example v = Some (PyDict l) -> suffix = EmptyString)
    /\ (value_example v = Some PyNone \/ value_example v = None ->
        suffix = EmptyString).
Proof.
  intros Ht. exists (default_suffix n (get_example v)). split.
  - unfold ValueOption. rewrite (write_option_value _ _ _ _ _ _ _ _ _ _ _ Ht).
    cbn [result_map bind extend writer]. unfold header_text.
    f_equal. string_assoc.
  - unfold get_example, default_suffix.
    repeat split.
    + now intros b ->.
    + now intros z ->.
    + now intros text ->.
    + intros s -> Hs. apply String.eqb_neq in Hs. now rewrite Hs.
    + intros ->. now rewrite String.eqb_refl.
    + now intros l ->.
    + now intros l ->.
    + now intros [-> | ->].
Qed.

(** C6.  The lines of the serialised example of a value option are written
    one by one after the indentation: as they are when the option is
    required, each behind the comment marker [# ] when it is optional.  The
    header of a required option ends with [required]; that of an optional
    one goes on with [optional]. *)
Theorem example_comment_marker n r v d t w indent start_list :
  value_type_string v = Ok t ->
  exists header,
    result_map writer (write_option (ValueOption n r v d) w indent start_list) =
    Ok (writer w
          ++ header ++ Py.nl
          ++ description_text indent (Py.splitlines d)
          ++ indent ++ "#" ++ Py.nl
          ++ Py.join
               (map (fun line =>
                       (if start_list then Py.drop_last2 indent else indent)
                         ++ (if r then EmptyString else "# ") ++ line ++ Py.nl)
                  (example_lines n (get_example v) start_list)))
    /\ (r = true -> header = indent ++ "## " ++ n ++ " - " ++ t ++ " - " ++ "required")
    /\ (r = false ->
        exists suffix,
          header = indent ++ "## " ++ n ++ " - " ++ t ++ " - " ++ "optional" ++ suffix).
Proof.
  intros Ht. exists (header_text indent n t r (get_example v)). split; [|split].
  - unfold ValueOption. rewrite (write_option_value _ _ _ _ _ _ _ _ _ _ _ Ht).
    reflexivity.
  - now intros ->.
  - intros ->. now exists (default_suffix n (get_example v)).
Qed.

(** ** Sections with [multiple] *)

Lemma multiple_required_first n r d e first rest w indent start_list :
  required first = Some true ->
  write_option (Node n None r d (Some true) (Some (first :: rest)) e)
    w indent start_list =
  (w1 <- write_option first
           (extend w (section_head indent n d ++ Py.nl)
              (description_errors "section" n indent (Py.splitlines d)))
           (indent ++ "    ") true ;;
   write_children true (indent ++ "    ") 1 rest w1).
Proof.
  intros Hreq. rewrite write_option_section, write_children_cons.
  cbn [Nat.eqb andb]. rewrite Hreq. cbn [getitem bind].
  rewrite write_extend, extend_extend, app_nil_r. unfold section_head.
  match goal with
  | |- bind (write_option _ ?a _ _) _ = bind (write_option _ ?b _ _) _ =>
      replace a with b; [reflexivity | f_equal; string_assoc]
  end.
Qed.

Lemma multiple_optional_first n r d e first rest w indent start_list :
  required first = Some false ->
  write_option (Node n None r d (Some true) (Some (first :: rest)) e)
    w indent start_list =
  (w1 <- write_option first
           (extend w (section_head indent n d ++ Py.nl ++ indent ++ "  -" ++ Py.nl)
              (description_errors "section" n indent (Py.splitlines d)))
           (indent ++ "    ") false ;;
   write_children true (indent ++ "    ") 1 rest w1).
Proof.
  intros Hreq. rewrite write_option_section, write_children_cons.
  cbn [Nat.eqb andb]. rewrite Hreq. cbn [getitem bind].
  rewrite !write_extend, !extend_extend, !app_nil_r, drop_last2_step.
  unfold section_head.
  match goal with
  | |- bind (write_option _ ?a _ _) _ = bind (write_option _ ?b _ _) _ =>
      replace a with b; [reflexivity | f_equal; string_assoc]
  end.
Qed.

Lemma multiple_empty n r d e w indent start_list :
  write_option (Node n None r d (Some true) (Some []) e) w indent start_list =
  Ok (extend w (section_head indent n d ++ Py.nl ++ indent ++ "  - {}" ++ Py.nl)
        (description_errors "section" n indent (Py.splitlines d))).
Proof.
  rewrite write_option_empty, drop_last2_step. unfold section_head.
  do 2 f_equal. string_assoc.
Qed.

Lemma first_of_multiple_value n r v d t w indent :
  value_type_string v = Ok t ->
  write_option (ValueOption n r v d) w (indent ++ "    ") true =
  Ok (extend w
        (header_text (indent ++ "    ") n t r (get_example v) ++ Py.nl
           ++ description_text (indent ++ "    ") (Py.splitlines d)
           ++ (indent ++ "    ") ++ "#" ++ Py.nl
           ++ example_text r (indent ++ "  ")
                (Py.splitlines
                   (safe_dump (PyList [PyDict [(PyStr n, get_example v)]]))))
        (description_errors "option" n (indent ++ "    ") (Py.splitlines d))).
Proof.
  intros Ht. unfold ValueOption.
  rewrite (write_option_value _ _ _ _ _ _ _ _ _ _ _ Ht), drop_last2_step.
  reflexivity.
Qed.

(** C4, as the code has it.  In a section with [multiple] true: when the
    first child is required, it is rendered right after the line [<name>:]
    and a blank line, with [start_list] true, and no marker line comes before
    it; a value option rendered so has its example dumped as a sequence of
    one mapping.  When the first child is optional, a line holding the bare
    marker [-], with no space after it, is written two columns in from the
    section, and the child is rendered after it with [start_list] false.
    When there is no option, the line [<name>:] is followed by a blank line
    and the line [- {}], two columns in. *)
Theorem multiple_section_first_child :
  (forall n r d e first rest w indent start_list,
      required first = Some true ->
      write_option (Node n None r d (Some true) (Some (first :: rest)) e)
        w indent start_list =
      (w1 <- write_option first
               (extend w (section_head indent n d ++ Py.nl)
                  (description_errors "section" n indent (Py.splitlines d)))
               (indent ++ "    ") true ;;
       write_children true (indent ++ "    ") 1 rest w1))
  /\ (forall n r v d t w indent,
        value_type_string v = Ok t ->
        write_option (ValueOption n r v d) w (indent ++ "    ") true =
        Ok (extend w
              (header_text (indent ++ "    ") n t r (get_example v) ++ Py.nl
                 ++ description_text (indent ++ "    ") (Py.splitlines d)
                 ++ (indent ++ "    ") ++ "#" ++ Py.nl
                 ++ example_text r (indent ++ "  ")
                      (Py.splitlines
                         (safe_dump (PyList [PyDict [(PyStr n, get_example v)]]))))
              (description_errors "option" n (indent ++ "    ") (Py.splitlines d))))
  /\ (forall n r d e first rest w indent start_list,
        required first = Some false ->
        write_option (Node n None r d (Some true) (Some (first :: rest)) e)
          w indent start_list =
        (w1 <- write_option first
                 (extend w
                    (section_head indent n d ++ Py.nl ++ indent ++ "  -" ++ Py.nl)
                    (description_errors "section" n indent (Py.splitlines d)))
                 (indent ++ "    ") false ;;
         write_children true (indent ++ "    ") 1 rest w1))
  /\ (forall n r d e w indent start_list,
        write_option (Node n None r d (Some true) (Some []) e) w indent start_list =
        Ok (extend w
              (description_text indent (Py.splitlines d) ++ indent ++ "#" ++ Py.nl
                 ++ indent ++ n ++ ":" ++ Py.nl
                 ++ Py.nl
                 ++ indent ++ "  - {}" ++ Py.nl)
              (description_errors "section" n indent (Py.splitlines d)))).
Proof.
  split; [|split; [|split]].
  - apply multiple_required_first.
  - apply first_of_multiple_value.
  - apply multiple_optional_first.
  - intros. rewrite multiple_empty. unfold section_head.
    do 2 f_equal. string_assoc.
Qed.

(** ** Indentation *)

(** C3, as the code has it.  A section renders each of its options four
    spaces in from itself.  The indentation taken back for a list marker is
    two characters, half a step: the example of a first child rendered with
    [start_list] true, the line of the bare marker and the line [- {}] of a
    section with [multiple] true all stand two spaces in from the section,
    two columns left of its options. *)
Theorem indentation_steps :
  (forall n r d e multiple first rest w indent start_list,
      write_option (Node n None r d (Some multiple) (Some (first :: rest)) e)
        w indent start_list =
      write_children multiple (indent ++ "    ") 0 (first :: rest)
        (extend w (section_head indent n d)
           (description_errors "section" n indent (Py.splitlines d))))
  /\ (forall multiple next_indent i opt rest w,
        ((i =? 0)%nat && multiple) = false ->
        write_children multiple next_indent i (opt :: rest) w =
        (w1 <- write_option opt (write w [Py.nl]) next_indent false ;;
         write_children multiple next_indent (S i) rest w1))
  /\ (forall indent,
        String.length (indent ++ "    ") = String.length indent + 4
        /\ Py.drop_last2 (indent ++ "    ") = indent ++ "  "
        /\ String.length (Py.drop_last2 (indent ++ "    ")) = String.length indent + 2)
  /\ (forall n r v d t w indent,
        value_type_string v = Ok t ->
        result_map writer (write_option (ValueOption n r v d) w (indent ++ "    ") true) =
        Ok (writer w
              ++ header_text (indent ++ "    ") n t r (get_example v) ++ Py.nl
              ++ description_text (indent ++ "    ") (Py.splitlines d)
              ++ (indent ++ "    ") ++ "#" ++ Py.nl
              ++ example_text r (indent ++ "  ")
                   (example_lines n (get_example v) true)))
  /\ (forall n r d e first rest w indent start_list,
        required first = Some false ->
        write_option (Node n None r d (Some true) (Some (first :: rest)) e)
          w indent start_list =
        (w1 <- write_option first
                 (extend w
                    (section_head indent n d ++ Py.nl ++ (indent ++ "  ") ++ "-" ++ Py.nl)
                    (description_errors "section" n indent (Py.splitlines d)))
                 (indent ++ "    ") false ;;
         write_children true (indent ++ "    ") 1 rest w1))
  /\ (forall n r d e w indent start_list,
        result_map writer
          (write_option (Node n None r d (Some true) (Some []) e) w indent start_list) =
        Ok (writer w ++ section_head indent n d ++ Py.nl
              ++ (indent ++ "  ") ++ "- {}" ++ Py.nl)).
Proof.
  split; [|split; [|split; [|split; [|split]]]].
  - intros. rewrite write_option_section. unfold section_head. reflexivity.
  - intros multiple next_indent i opt rest w Hcase.
    rewrite write_children_cons. now rewrite Hcase.
  - intros indent. rewrite drop_last2_step, !length_append. cbn. repeat split; lia.
  - intros n r v d t w indent Ht.
    rewrite (first_of_multiple_value _ _ _ _ _ _ _ Ht). reflexivity.
  - intros n r d e first rest w indent start_list Hreq.
    rewrite (multiple_optional_first _ _ _ _ _ _ _ _ _ Hreq).
    match goal with
    | |- bind (write_option _ ?a _ _) _ = bind (write_option _ ?b _ _) _ =>
        replace a with b; [reflexivity | f_equal; string_assoc]
    end.
  - intros. rewrite multiple_empty. cbn [result_map bind extend writer].
    f_equal. string_assoc.
Qed.

(** ** The mapping of [render] *)

Lemma existsb_eqb_In (key : string) (keys : list string) :
  existsb (String.eqb key) keys = true <-> In key keys.
Proof.
  rewrite existsb_exists. split.
  - intros (x & Hin & Heq). apply String.eqb_eq in Heq. now subst.
  - intros Hin. exists key. split; [exact Hin | apply String.eqb_refl].
Qed.

Lemma od_set_keys {V : Type} (key : string) (v : V) (d : list (string * V)) :
  map fst (od_set key v d) = keys_after (map fst d) key.
Proof.
  unfold keys_after. induction d as [|[k v'] d IH]; [reflexivity|].
  cbn [od_set map fst existsb]. rewrite (String.eqb_sym key k).
  destruct (String.eqb_spec k key) as [->|Hne]; [reflexivity|].
  cbn [map fst orb]. rewrite IH.
  now destruct (existsb (String.eqb key) (map fst d)).
Qed.

Lemma keys_after_NoDup (keys : list string) (key : string) :
  NoDup keys -> NoDup (keys_after keys key).
Proof.
  intros Hnd. unfold keys_after.
  destruct (existsb (String.eqb key) keys) eqn:Hex; [exact Hnd|].
  assert (Hnot : ~ In key keys).
  { intros Hin. apply existsb_eqb_In in Hin. congruence. }
  apply NoDup_app; [exact Hnd | repeat constructor; intros [] | ].
  intros x Hx [<-|[]]. now apply Hnot.
Qed.

Lemma od_get_set_same {V : Type} (key : string) (v : V) (d : list (string * V)) :
  od_get key (od_set key v d) = Some v.
Proof.
  induction d as [|[k v'] d IH]; cbn [od_set od_get].
  - now rewrite String.eqb_refl.
  - destruct (String.eqb_spec k key) as [->|Hne]; cbn [od_get].
    + now rewrite String.eqb_refl.
    + apply String.eqb_neq in Hne. now rewrite Hne.
Qed.

Lemma od_get_set_other {V : Type} (key k : string) (v : V) (d : list (string * V)) :
  k <> key -> od_get k (od_set key v d) = od_get k d.
Proof.
  intros Hne. induction d as [|[k0 v'] d IH]; cbn [od_set od_get].
  - apply not_eq_sym in Hne. apply String.eqb_neq in Hne. now rewrite Hne.
  - destruct (String.eqb_spec k0 key) as [->|Hne0]; cbn [od_get]; [|now rewrite IH].
    apply not_eq_sym in Hne. apply String.eqb_neq in Hne. now rewrite Hne.
Qed.

Lemma render_from_keys files :
  forall acc d,
    render_from acc files = Ok d ->
    map fst d = fold_left keys_after (map example_name files) (map fst acc)
    /\ (NoDup (map fst acc) -> NoDup (map fst d))
    /\ (forall k, ~ In k (map example_name files) -> od_get k d = od_get k acc).
Proof.
  induction files as [|f rest IH]; intros acc d Hrun.
  - injection Hrun as <-. now repeat split.
  - cbn [render_from] in Hrun.
    destruct (render_file f) as [r|]; [|discriminate]. cbn [bind] in Hrun.
    destruct (IH _ _ Hrun) as (Hkeys & Hnd & Hget).
    cbn [map fold_left]. rewrite od_set_keys in Hkeys, Hnd. repeat split.
    + exact Hkeys.
    + intros Hacc. apply Hnd. now apply keys_after_NoDup.
    + intros k Hk. rewrite Hget by (intros Hin; apply Hk; now right).
      apply od_get_set_other. intros ->. apply Hk. now left.
Qed.

Lemma render_from_last pre :
  forall acc f post r d,
    render_from acc (pre ++ f :: post) = Ok d ->
    ~ In (example_name f) (map example_name post) ->
    render_file f = Ok r ->
    od_get (example_name f) d = Some r.
Proof.
  induction pre as [|g pre IH]; intros acc f post r d Hrun Hlast Hf.
  - rewrite app_nil_l in Hrun. cbn [render_from] in Hrun.
    rewrite Hf in Hrun. cbn [bind] in Hrun.
    destruct (render_from_keys _ _ _ Hrun) as (_ & _ & Hget).
    rewrite (Hget _ Hlast). apply od_get_set_same.
  - rewrite <- app_comm_cons in Hrun. cbn [render_from] in Hrun.
    destruct (render_file g) as [rg|]; [|discriminate]. cbn [bind] in Hrun.
    exact (IH _ _ _ _ _ Hrun Hlast Hf).
Qed.

Lemma render_from_returns files :
  (forall f, In f files -> exists r, render_file f = Ok r) ->
  forall acc, exists d, render_from acc files = Ok d.
Proof.
  induction files as [|f rest IH]; intros Hall acc.
  - now exists acc.
  - destruct (Hall f (or_introl eq_refl)) as (r & Hr).
    cbn [render_from]. rewrite Hr. cbn [bind].
    apply IH. intros g Hg. apply Hall. now right.
Qed.

(** C9.  When every file renders, [render] returns, files that share an
    [example_name] included.  In the mapping returned each key stands once,
    the keys are the names of the files in the order each is first seen, and
    a name is bound to the result of the last file that carries it.  So for
    three files named k, k' and k again, the mapping is k, bound to the
    result of the third file, followed by k', bound to that of the
    second. *)
Theorem duplicate_example_name :
  (forall files,
      (forall f, In f files -> exists r, render_file f = Ok r) ->
      exists d,
        render files = Ok d
        /\ NoDup (map fst d)
        /\ map fst d = first_seen (map example_name files)
        /\ (forall pre f post r,
              files = (pre ++ f :: post)%list ->
              ~ In (example_name f) (map example_name post) ->
              render_file f = Ok r ->
              od_get (example_name f) d = Some r))
  /\ (forall a b a' ra rb ra',
        example_name a' = example_name a ->
        example_name b <> example_name a ->
        render_file a = Ok ra -> render_file b = Ok rb -> render_file a' = Ok ra' ->
        render [a; b; a'] = Ok [(example_name a, ra'); (example_name b, rb)]).
Proof.
  split.
  - intros files Hall.
    destruct (render_from_returns files Hall []) as (d & Hd).
    exists d. destruct (render_from_keys _ _ _ Hd) as (Hkeys & Hnd & _).
    repeat split.
    + exact Hd.
    + apply Hnd. constructor.
    + exact Hkeys.
    + intros pre f post r -> Hlast Hf. exact (render_from_last _ _ _ _ _ _ Hd Hlast Hf).
  - intros a b a' ra rb ra' Hsame Hother Ha Hb Ha'.
    unfold render. cbn [render_from]. rewrite Ha, Hb, Ha'. cbn [bind od_set].
    rewrite Hsame.
    apply not_eq_sym in Hother. apply String.eqb_neq in Hother.
    rewrite Hother. cbn [od_set]. now rewrite String.eqb_refl.
Qed.

(** ** The buffer is only added to *)

Lemma replay_init (w : OptionWriter) text diagnostics :
  extend w (writer (extend OptionWriter_init text diagnostics))
    (errors (extend OptionWriter_init text diagnostics)) =
  extend w text diagnostics.
Proof. reflexivity. Qed.

Lemma replay_extend (w : OptionWriter) text diagnostics (r : result OptionWriter) :
  replay (extend w text diagnostics) r =
  (x <- replay (extend OptionWriter_init text diagnostics) r ;;
   Ok (extend w (writer x) (errors x))).
Proof.
  destruct r as [x|key]; cbn; [|reflexivity].
  unfold extend; cbn. now rewrite append_assoc, app_assoc.
Qed.

Lemma write_children_framed multiple next_indent options :
  Forall framed options ->
  forall i w,
    write_children multiple next_indent i options w =
    replay w (write_children multiple next_indent i options OptionWriter_init).
Proof.
  induction 1 as [|opt rest Hopt _ IH]; intros i w.
  - cbn. now rewrite extend_nil.
  - rewrite !write_children_cons.
    assert (Hstep : forall text sl,
               (w1 <- write_option opt (extend w text []) next_indent sl ;;
                write_children multiple next_indent (S i) rest w1) =
               replay w
                 (w1 <- write_option opt (extend OptionWriter_init text []) next_indent sl ;;
                  write_children multiple next_indent (S i) rest w1)).
    { intros text sl.
      rewrite (Hopt (extend w text [])), (Hopt (extend OptionWriter_init text [])).
      destruct (write_option opt OptionWriter_init next_indent sl) as [x|key];
        cbn [replay bind]; [|reflexivity].
      rewrite (IH (S i) (extend (extend w text []) _ _)),
        (IH (S i) (extend (extend OptionWriter_init text []) _ _)).
      destruct (write_children multiple next_indent (S i) rest OptionWriter_init)
        as [y|key]; cbn [replay bind]; [|reflexivity].
      f_equal. unfold extend; cbn.
      now rewrite !append_assoc, !app_nil_r, <- !app_assoc. }
    destruct ((i =? 0)%nat && multiple).
    + destruct (required opt) as [[|]|]; cbn [getitem bind]; [| |reflexivity].
      * rewrite !write_extend. apply Hstep.
      * rewrite !write_extend, !extend_extend. apply Hstep.
    + rewrite !write_extend. apply Hstep.
Qed.

Lemma write_option_framed (opt : schema_node) : framed opt.
Proof.
  induction opt as [n v r d m os e IH] using schema_node_induction.
  intros w indent start_list.
  destruct v as [v|].
  - destruct r as [r|]; [|reflexivity].
    destruct (value_type_string v) as [t|key] eqn:Ht.
    + now rewrite !(write_option_value _ _ _ _ _ _ _ _ _ _ _ Ht).
    + cbn [write_option getitem bind]. rewrite Ht. reflexivity.
  - destruct os as [[|first rest]|].
    + destruct m as [multiple|]; [|reflexivity]. now rewrite !write_option_empty.
    + destruct m as [multiple|]; [|reflexivity].
      rewrite !write_option_section.
      rewrite (write_children_framed _ _ _ IH 0 (extend w _ _)),
        (write_children_framed _ _ _ IH 0 (extend OptionWriter_init _ _)).
      apply replay_extend.
    + now rewrite !write_option_described.
Qed.

(** X1.  Rendering an option on a buffer that already holds text and
    diagnostics gives that buffer followed by what the option gives on an
    empty buffer, and raises exactly when it raises on an empty buffer:
    nothing written before is changed or looked at. *)
Theorem write_option_appends (opt : schema_node) (w : OptionWriter)
  (indent : string) (start_list : bool) :
  write_option opt w indent start_list =
  match write_option opt OptionWriter_init indent start_list with
  | Ok added => Ok {| writer := writer w ++ writer added;
                      errors := (errors w ++ errors added)%list |}
  | KeyError key => KeyError key
  end.
Proof. apply write_option_framed. Qed.

(** ** The options of a file *)

Lemma write_options_joined options rs :
  Forall2 (fun opt r => write_option opt OptionWriter_init EmptyString false = Ok r)
    options rs ->
  forall num_options i w,
    i + List.length options = S num_options ->
    write_options num_options i options w =
    Ok (extend w (sep_join Py.nl (map writer rs)) (concat (map errors rs))).
Proof.
  induction 1 as [|opt r options rs Hr Hrest IH]; intros num_options i w Hi.
  - cbn. now rewrite extend_nil.
  - cbn [write_options]. rewrite write_option_framed, Hr. cbn [replay bind].
    destruct Hrest as [|opt' r' options rs Hr' Hrest].
    + cbn in Hi. replace (i =? num_options)%nat with true
        by (symmetry; apply Nat.eqb_eq; lia).
      cbn. now rewrite app_nil_r.
    + cbn [List.length] in Hi.
      replace (i =? num_options)%nat with false
        by (symmetry; apply Nat.eqb_neq; lia).
      cbn [negb]. rewrite (IH num_options (S i)) by (cbn [List.length]; lia).
      rewrite write_extend, !extend_extend. cbn [map sep_join concat].
      f_equal; try string_assoc; try now rewrite app_nil_r.
Qed.

(** X2.  When each option of a file renders on its own, the content of the
    file is the texts of its options in order with one line feed between two
    consecutive ones and none after the last, and its diagnostics are those
    of its options in order; a file without options gives the empty text. *)
Theorem file_joins_options (key : string) (options : list schema_node)
  (rs : list OptionWriter) :
  Forall2 (fun opt r => write_option opt OptionWriter_init EmptyString false = Ok r)
    options rs ->
  render_file {| example_name := key; file_options := options |} =
  Ok (sep_join Py.nl (map writer rs), concat (map errors rs)).
Proof.
  intros Hall. unfold render_file. cbn [file_options].
  rewrite (write_options_joined _ _ Hall) by lia. reflexivity.
Qed.

Lemma write_options_fails pre rs :
  Forall2 (fun opt r => write_option opt OptionWriter_init EmptyString false = Ok r)
    pre rs ->
  forall opt post key num_options i w,
    write_option opt OptionWriter_init EmptyString false = KeyError key ->
    write_options num_options i (pre ++ opt :: post) w = KeyError key.
Proof.
  induction 1 as [|o r pre rs Hr _ IH]; intros opt post key num_options i w Hfail.
  - rewrite app_nil_l. cbn [write_options]. now rewrite write_option_framed, Hfail.
  - rewrite <- app_comm_cons. cbn [write_options].
    rewrite write_option_framed, Hr. cbn [replay bind]. now apply IH.
Qed.

Lemma render_from_fails pre :
  (forall g, In g pre -> exists r, render_file g = Ok r) ->
  forall f post key acc,
    render_file f = KeyError key ->
    render_from acc (pre ++ f :: post) = KeyError key.
Proof.
  induction pre as [|g pre IH]; intros Hpre f post key acc Hfail.
  - rewrite app_nil_l. cbn [render_from]. now rewrite Hfail.
  - rewrite <- app_comm_cons. cbn [render_from].
    destruct (Hpre g (or_introl eq_refl)) as (r & ->). cbn [bind].
    apply IH; [|exact Hfail]. intros h Hh. apply Hpre. now right.
Qed.

(** X3.  The first option that raises decides for its file, and the first
    file that raises decides for [render]: the [KeyError] of that option is
    the result, whatever was rendered before and whatever comes after, and
    no mapping is returned. *)
Theorem first_failure_decides :
  (forall name pre rs opt post key,
      Forall2 (fun o r => write_option o OptionWriter_init EmptyString false = Ok r)
        pre rs ->
      write_option opt OptionWriter_init EmptyString false = KeyError key ->
      render_file {| example_name := name; file_options := (pre ++ opt :: post)%list |} =
      KeyError key)
  /\ (forall pre f post key,
        (forall g, In g pre -> exists r, render_file g = Ok r) ->
        render_file f = KeyError key ->
        render (pre ++ f :: post) = KeyError key).
Proof.
  split.
  - intros name pre rs opt post key Hpre Hfail. unfold render_file. cbn [file_options].
    now rewrite (write_options_fails _ _ Hpre _ _ _ _ _ _ Hfail).
  - intros pre f post key Hpre Hfail. now apply render_from_fails.
Qed.

Lemma od_set_absent {V : Type} (key : string) (v : V) (d : list (string * V)) :
  ~ In key (map fst d) -> od_set key v d = (d ++ [(key, v)])%list.
Proof.
  induction d as [|[k v'] d IH]; intros Hnot; [reflexivity|].
  cbn [od_set app]. cbn [map fst] in Hnot.
  destruct (String.eqb_spec k key) as [->|Hne].
  - exfalso. apply Hnot. now left.
  - rewrite IH; [reflexivity|]. intros Hin. apply Hnot. now right.
Qed.

Lemma render_from_distinct files rs :
  Forall2 (fun f r => render_file f = Ok r) files rs ->
  forall acc,
    NoDup (map fst acc ++ map example_name files) ->
    render_from acc files = Ok (acc ++ combine (map example_name files) rs)%list.
Proof.
  induction 1 as [|f r files rs Hr _ IH]; intros acc Hnd.
  - cbn. now rewrite app_nil_r.
  - cbn [render_from]. rewrite Hr. cbn [bind map] in Hnd |- *.
    assert (Hnot : ~ In (example_name f) (map fst acc)).
    { intros Hin. apply NoDup_remove_2 in Hnd. apply Hnd, in_or_app. now left. }
    rewrite (od_set_absent _ _ _ Hnot), IH.
    + cbn [combine]. now rewrite <- app_assoc.
    + rewrite map_app. cbn [map fst]. now rewrite <- app_assoc.
Qed.

(** X4.  When the names of the files are pairwise distinct and every file
    renders, the mapping has one entry for each file, in the order of the
    files, each name bound to the result of its file. *)
Theorem distinct_names_in_order (files : list file)
  (rs : list (string * list string)) :
  NoDup (map example_name files) ->
  Forall2 (fun f r => render_file f = Ok r) files rs ->
  render files = Ok (combine (map example_name files) rs).
Proof.
  intros Hnd Hall. unfold render.
  now rewrite (render_from_distinct _ _ Hall []).
Qed.

(** ** The length limit under indentation *)

Lemma description_errors_filter kind option_name indent lines :
  description_errors kind option_name indent lines =
  map (fun line =>
         length_error kind option_name
           (String.length indent + 3 + String.length line - 120))
    (filter (fun line =>
               Py.truthy line
               && (120 <? String.length indent + 3 + String.length line)%nat)
       lines).
Proof.
  unfold description_errors, DESCRIPTION_LINE_LENGTH_LIMIT.
  induction lines as [|line rest IH]; [reflexivity|].
  cbn [flat_map filter]. rewrite IH, !length_append.
  change (String.length "## ") with 3. rewrite Nat.add_assoc.
  now destruct (Py.truthy line && (120 <? String.length indent + 3 + String.length line)%nat).
Qed.

(** X5.  An option without child options, rendered at any indentation,
    gets one diagnostic for each non-empty line of its description for which
    the indentation, the three characters of the marker and the line come to
    more than 120 characters, in the order of the lines, each reporting the
    excess; an empty line is never reported, however long the indentation.
    So the options of a section have four characters less than the section
    itself: a single option of a section whose own description is within the
    limit is reported exactly when its line is. *)
Theorem description_limit_at_indent :
  (forall opt indent start_list,
      childless opt = true ->
      result_map errors (write_option opt OptionWriter_init indent start_list) =
      Ok (map (fun line =>
                 length_error (kind_of opt) (name opt)
                   (String.length indent + 3 + String.length line - 120))
            (filter (fun line =>
                       Py.truthy line
                       && (120 <? String.length indent + 3 + String.length line)%nat)
               (Py.splitlines (description opt)))))
  /\ (forall n r d e child indent start_list,
        childless child = true ->
        description_errors "section" n indent (Py.splitlines d) = [] ->
        result_map errors
          (write_option (Node n None r d (Some false) (Some [child]) e)
             OptionWriter_init indent start_list) =
        Ok (map (fun line =>
                   length_error (kind_of child) (name child)
                     (String.length indent + 7 + String.length line - 120))
              (filter (fun line =>
                         Py.truthy line
                         && (120 <? String.length indent + 7 + String.length line)%nat)
                 (Py.splitlines (description child))))).
Proof.
  split.
  - intros opt indent start_list Hleaf.
    now rewrite (childless_errors _ _ _ Hleaf), description_errors_filter.
  - intros n r d e child indent start_list Hleaf Hown.
    rewrite write_option_section, write_children_cons. cbn [Nat.eqb andb].
    rewrite write_option_framed.
    pose proof (childless_errors child (indent ++ "    ") false Hleaf) as Hchild.
    destruct (write_option child OptionWriter_init (indent ++ "    ") false)
      as [x|key]; [|discriminate].
    cbn in Hchild. injection Hchild as Hchild.
    cbn. rewrite Hown, Hchild, description_errors_filter, length_append.
    change (String.length "    ") with 4. f_equal. cbn [app].
    replace (String.length indent + 4 + 3) with (String.length indent + 7) by lia.
    reflexivity.
Qed.

(** ** Missing keys *)

Lemma write_children_fails multiple next_indent pre :
  forall rs opt post key i w,
    Forall2 (fun o r => write_option o OptionWriter_init next_indent false = Ok r) pre rs ->
    ((i =? 0)%nat && multiple) = false ->
    write_option opt OptionWriter_init next_indent false = KeyError key ->
    write_children multiple next_indent i (pre ++ opt :: post) w = KeyError key.
Proof.
  induction pre as [|o pre IH]; intros rs opt post key i w Hpre Hfirst Hfail.
  - rewrite app_nil_l, write_children_cons, Hfirst, write_option_framed, Hfail.
    reflexivity.
  - inversion Hpre as [|o' r pre' rs' Hr Hrest]; subst.
    rewrite <- app_comm_cons, write_children_cons, Hfirst, write_option_framed, Hr.
    cbn [replay bind]. eapply IH; [exact Hrest | | exact Hfail].
    reflexivity.
Qed.

(** X6.  Keys the renderer reads without a default.  A value option
    without [required] raises [KeyError] for [required], before its type is
    looked at; an [array] value without [items] raises it for [items]; a
    section that has [options], even an empty list, and no [multiple] raises
    it for [multiple].  A [KeyError] raised by an option of a section is the
    result of the section: nothing rendered before it is kept. *)
Theorem missing_keys :
  (forall n v d m os e w indent start_list,
      write_option (Node n (Some v) None d m os e) w indent start_list =
      KeyError "required")
  /\ (forall n r v d m os e w indent start_list,
        value_type v = "array" -> value_items v = None ->
        write_option (Node n (Some v) (Some r) d m os e) w indent start_list =
        KeyError "items")
  /\ (forall n r d os e w indent start_list,
        write_option (Node n None r d None (Some os) e) w indent start_list =
        KeyError "multiple")
  /\ (forall n r d e pre rs opt post key w indent start_list,
        Forall2 (fun o x =>
                   write_option o OptionWriter_init (indent ++ "    ") false = Ok x)
          pre rs ->
        write_option opt OptionWriter_init (indent ++ "    ") false = KeyError key ->
        write_option (Node n None r d (Some false) (Some (pre ++ opt :: post)%list) e)
          w indent start_list = KeyError key).
Proof.
  split; [|split; [|split]].
  - reflexivity.
  - intros n r v d m os e w indent start_list Harr Hitems.
    cbn [write_option getitem bind]. unfold value_type_string.
    now rewrite Harr, Hitems.
  - reflexivity.
  - intros n r d e pre rs opt post key w indent start_list Hpre Hfail.
    destruct pre as [|o pre].
    + rewrite app_nil_l, write_option_section.
      now apply (write_children_fails false _ [] []).
    + rewrite <- app_comm_cons, write_option_section, app_comm_cons.
      now apply (write_children_fails false _ (o :: pre) rs).
Qed.

(** ** Whole lines *)

Lemma join_lines_end {A : Type} (f : A -> string) (items : list A) :
  (forall x, exists body, f x = body ++ Py.nl) ->
  Py.join (map f items) = EmptyString \/
  exists body, Py.join (map f items) = body ++ Py.nl.
Proof.
  intros Hf. induction items as [|x rest IH]; [now left|].
  right. cbn [map Py.join]. destruct (Hf x) as (b & ->).
  destruct IH as [->|(body & ->)].
  - exists b. now rewrite append_nil_r.
  - exists ((b ++ Py.nl) ++ body). now rewrite !append_assoc.
Qed.

Lemma example_text_ends required indent lines :
  example_text required indent lines = EmptyString \/
  exists body, example_text required indent lines = body ++ Py.nl.
Proof.
  apply join_lines_end. intros line.
  exists (indent ++ (if required then EmptyString else "# ") ++ line).
  now rewrite !append_assoc.
Qed.

Lemma commented_text_ends indent lines :
  commented_text indent lines = EmptyString \/
  exists body, commented_text indent lines = body ++ Py.nl.
Proof.
  apply join_lines_end. intros line. exists (indent ++ "# " ++ line).
  now rewrite !append_assoc.
Qed.

Lemma ends_after (head tail : string) :
  (tail = EmptyString \/ exists body, tail = body ++ Py.nl) ->
  exists body, head ++ Py.nl ++ tail = body ++ Py.nl.
Proof.
  intros [->|(body & ->)].
  - exists head. now rewrite append_nil_r.
  - exists (head ++ Py.nl ++ body). now rewrite !append_assoc.
Qed.

Lemma children_text_ends multiple next_indent options :
  Forall ends_lines options ->
  forall i text,
    children_text multiple next_indent i options = Ok text ->
    text = EmptyString \/ exists body, text = body ++ Py.nl.
Proof.
  induction 1 as [|opt rest Hopt _ IH]; intros i text Hrun.
  - injection Hrun as <-. now left.
  - rewrite children_text_cons in Hrun. right.
    assert (Hstep : forall t ts,
               (exists body, t = body ++ Py.nl) ->
               children_text multiple next_indent (S i) rest = Ok ts ->
               exists body, Py.nl ++ t ++ ts = body ++ Py.nl).
    { intros t ts (b & ->) Hts. destruct (IH _ _ Hts) as [->|(b' & ->)].
      - exists (Py.nl ++ b). now rewrite append_nil_r, !append_assoc.
      - exists (Py.nl ++ (b ++ Py.nl) ++ b'). now rewrite !append_assoc. }
    destruct ((i =? 0)%nat && multiple).
    + destruct (required opt) as [[|]|]; cbn [getitem bind] in Hrun; [| |discriminate].
      * destruct (option_text opt next_indent true) as [t|] eqn:Ht; [|discriminate].
        cbn [bind] in Hrun.
        destruct (children_text multiple next_indent (S i) rest) as [ts|] eqn:Hts;
          [|discriminate].
        injection Hrun as <-. exact (Hstep _ _ (Hopt _ _ _ Ht) eq_refl).
      * destruct (option_text opt next_indent false) as [t|] eqn:Ht; [|discriminate].
        cbn [bind] in Hrun.
        destruct (children_text multiple next_indent (S i) rest) as [ts|] eqn:Hts;
          [|discriminate].
        injection Hrun as <-. apply (Hstep _ ts); [|reflexivity].
        destruct (Hopt _ _ _ Ht) as (b & ->).
        exists (Py.drop_last2 next_indent ++ "-" ++ Py.nl ++ b).
        now rewrite !append_assoc.
    + destruct (option_text opt next_indent false) as [t|] eqn:Ht; [|discriminate].
      cbn [bind] in Hrun.
      destruct (children_text multiple next_indent (S i) rest) as [ts|] eqn:Hts;
        [|discriminate].
      injection Hrun as <-. exact (Hstep _ _ (Hopt _ _ _ Ht) eq_refl).
Qed.

Lemma option_text_value n v r d m os e indent start_list t :
  value_type_string v = Ok t ->
  option_text (Node n (Some v) (Some r) d m os e) indent start_list =
  Ok ((header_text indent n t r (get_example v) ++ Py.nl
         ++ description_text indent (Py.splitlines d) ++ indent ++ "#")
        ++ Py.nl
        ++ example_text r (if start_list then Py.drop_last2 indent else indent)
             (example_lines n (get_example v) start_list)).
Proof.
  intros Ht. cbn [option_text getitem bind]. rewrite Ht. cbn [bind].
  f_equal. now rewrite !append_assoc.
Qed.

Lemma option_text_empty n r d e indent start_list multiple :
  option_text (Node n None r d (Some multiple) (Some []) e) indent start_list =
  Ok ((description_text indent (Py.splitlines d) ++ indent ++ "#" ++ Py.nl
         ++ indent ++ n ++ ":")
        ++ Py.nl
        ++ (if multiple
            then Py.nl ++ Py.drop_last2 (indent ++ "    ") ++ "- {}" ++ Py.nl
            else EmptyString)).
Proof.
  cbn [option_text getitem bind]. f_equal. now rewrite !append_assoc.
Qed.

Lemma option_text_described n r d m e indent start_list :
  exists option_yaml,
    option_text (Node n None r d m None e) indent start_list =
    Ok ((description_text indent (Py.splitlines d) ++ indent ++ "#")
          ++ Py.nl ++ commented_text indent (Py.splitlines option_yaml)).
Proof.
  eexists. cbn [option_text]. f_equal. now rewrite !append_assoc.
Qed.

Lemma option_text_ends (opt : schema_node) : ends_lines opt.
Proof.
  induction opt as [n v r d m os e IH] using schema_node_induction.
  intros indent start_list text Hrun.
  destruct v as [v|].
  - destruct r as [r|]; [|discriminate].
    destruct (value_type_string v) as [t|] eqn:Ht.
    + rewrite (option_text_value _ _ _ _ _ _ _ _ _ _ Ht) in Hrun.
      injection Hrun as <-.
      match goal with
      | |- exists body, ?head ++ String _ ?tail = _ => apply (ends_after head tail)
      end. apply example_text_ends.
    + cbn [option_text getitem bind] in Hrun. rewrite Ht in Hrun. discriminate.
  - destruct os as [[|first rest]|].
    + destruct m as [multiple|]; [|discriminate].
      rewrite option_text_empty in Hrun. injection Hrun as <-.
      match goal with
      | |- exists body, ?head ++ String _ ?tail = _ => apply (ends_after head tail)
      end.
      destruct multiple; [right|now left].
      exists (Py.nl ++ Py.drop_last2 (indent ++ "    ") ++ "- {}").
      now rewrite !append_assoc.
    + destruct m as [multiple|]; [|discriminate].
      rewrite option_text_section in Hrun.
      destruct (children_text multiple (indent ++ "    ") 0 (first :: rest))
        as [body|] eqn:Hbody; [|discriminate].
      cbn [bind] in Hrun. injection Hrun as <-.
      destruct (children_text_ends _ _ _ IH _ _ Hbody) as [->|(b & ->)].
      * exists ((description_text indent (Py.splitlines d) ++ indent ++ "#" ++ Py.nl)
                  ++ indent ++ n ++ ":").
        string_assoc.
      * exists ((description_text indent (Py.splitlines d) ++ indent ++ "#" ++ Py.nl)
                  ++ indent ++ n ++ ":" ++ Py.nl ++ b).
        string_assoc.
    + destruct (option_text_described n r d m e indent start_list) as (y & Hy).
      rewrite Hy in Hrun. injection Hrun as <-.
      match goal with
      | |- exists body, ?head ++ String _ ?tail = _ => apply (ends_after head tail)
      end. apply commented_text_ends.
Qed.

(** X7.  Whatever an option renders to ends with a line feed: the renderer
    writes whole lines only, and never nothing.  Hence the content of a file
    that has options ends with a line feed as well. *)
Theorem rendering_ends_with_line_feed :
  (forall opt w indent start_list w',
      write_option opt w indent start_list = Ok w' ->
      exists body, writer w' = writer w ++ body ++ Py.nl)
  /\ (forall name opt options content diagnostics,
        render_file {| example_name := name; file_options := opt :: options |} =
        Ok (content, diagnostics) ->
        exists body, content = body ++ Py.nl).
Proof.
  assert (Hone : forall opt w indent start_list w',
             write_option opt w indent start_list = Ok w' ->
             exists body, writer w' = writer w ++ body ++ Py.nl).
  { intros opt w indent start_list w' Hrun.
    pose proof (write_option_text opt w indent start_list) as Htext.
    rewrite Hrun in Htext. cbn in Htext.
    destruct (option_text opt indent start_list) as [t|] eqn:Ht; [|discriminate].
    cbn in Htext. injection Htext as Htext.
    destruct (option_text_ends _ _ _ _ Ht) as (body & ->).
    now exists body. }
  split; [exact Hone|].
  intros name opt options content diagnostics Hrun.
  unfold render_file in Hrun. cbn [file_options] in Hrun.
  remember (List.length (opt :: options)) as num eqn:Hnum. clear Hnum.
  remember OptionWriter_init as w0 eqn:Hw0. clear Hw0.
  remember 1 as i eqn:Hi. clear Hi.
  revert opt w0 i content diagnostics Hrun.
  induction options as [|next rest IH]; intros opt w0 i content diagnostics Hrun.
  - cbn [write_options] in Hrun.
    destruct (write_option opt w0 EmptyString false) as [w1|] eqn:H1; [|discriminate].
    cbn [bind] in Hrun. injection Hrun as <- <-.
    destruct (Hone _ _ _ _ _ H1) as (body & Hbody). unfold contents.
    destruct (negb (i =? num)%nat).
    + exists (writer w1). rewrite write_extend. reflexivity.
    + exists (writer w0 ++ body). now rewrite Hbody, !append_assoc.
  - cbn [write_options] in Hrun.
    destruct (write_option opt w0 EmptyString false) as [w1|] eqn:H1; [|discriminate].
    cbn [bind] in Hrun. exact (IH _ _ _ _ _ Hrun).
Qed.

(** ** Commented text *)







(** ** Descriptions line by line *)

Lemma rev_string_rev (l acc b : string) :
  Py.rev_string acc (Py.rev_string b l) = Py.rev_string (l ++ acc) b.
Proof.
  revert acc b. induction l as [|c l IH]; intros acc b; [reflexivity|].
  cbn [Py.rev_string append]. now rewrite IH.
Qed.

Lemma splitlines_from_plain (l : string) :
  plain l = true ->
  forall cur rest,
    Py.splitlines_from cur false (l ++ Py.nl ++ rest) =
    Py.rev_string EmptyString (Py.rev_string cur l)
      :: Py.splitlines_from EmptyString false rest.
Proof.
  induction l as [|c l IH]; intros Hplain cur rest; [reflexivity|].
  cbn [plain] in Hplain. apply andb_prop in Hplain as [Hc Hl].
  apply negb_true_iff in Hc.
  cbn [append Py.splitlines_from andb Py.rev_string]. rewrite Hc. now apply IH.
Qed.

Lemma splitlines_terminated (lines : list string) :
  Forall (fun l => plain l = true) lines ->
  Py.splitlines (Py.join (map (fun l => l ++ Py.nl) lines)) = lines.
Proof.
  unfold Py.splitlines. induction 1 as [|l rest Hl _ IH]; [reflexivity|].
  cbn [map Py.join]. rewrite append_assoc, (splitlines_from_plain l Hl), IH.
  f_equal. cbn [Py.rev_string]. now rewrite rev_string_rev, append_nil_r.
Qed.

(** X9.  A description made of lines each ended by a line feed, none of
    which holds a character that breaks lines, is written line by line in
    order: the indentation and [## ] before a non-empty line, the
    indentation and [##] alone for an empty one.  So it is for a value
    option, between header and separator, and for a section. *)
Theorem description_is_written_line_by_line (lines : list string) :
  Forall (fun l => plain l = true) lines ->
  let d := Py.join (map (fun l => l ++ Py.nl) lines) in
  let block indent :=
    Py.join (map (fun l =>
                    indent ++ (if Py.truthy l then "## " ++ l else "##") ++ Py.nl)
               lines) in
  (forall n r v t w indent start_list,
      value_type_string v = Ok t ->
      result_map writer (write_option (ValueOption n r v d) w indent start_list) =
      Ok (writer w
            ++ header_text indent n t r (get_example v) ++ Py.nl
            ++ block indent
            ++ indent ++ "#" ++ Py.nl
            ++ example_text r (if start_list then Py.drop_last2 indent else indent)
                 (example_lines n (get_example v) start_list)))
  /\ (forall n m e w indent start_list,
        exists example_block,
          result_map writer
            (write_option (SectionOption n d m None e) w indent start_list) =
          Ok (writer w ++ block indent ++ indent ++ "#" ++ Py.nl ++ example_block)).
Proof.
  intros Hplain d block.
  assert (Hblock : forall indent,
             description_text indent (Py.splitlines d) = block indent).
  { intros indent. unfold d. rewrite (splitlines_terminated _ Hplain).
    unfold description_text, block. f_equal. apply map_ext. intros l.
    destruct (Py.truthy l); now rewrite !append_assoc. }
  split.
  - intros n r v t w indent start_list Ht. unfold ValueOption.
    rewrite (write_option_value _ _ _ _ _ _ _ _ _ _ _ Ht).
    cbn [result_map bind extend writer]. now rewrite Hblock.
  - intros n m e w indent start_list. unfold SectionOption.
    rewrite write_option_described. eexists.
    cbn [result_map bind extend writer]. now rewrite Hblock.
Qed.

(** ** The buffer *)

(** X10.  [write] with several strings is [write] with the first ones and
    then with the others; it adds the strings in order to the text and
    leaves the diagnostics alone.  [new_error] adds one diagnostic at the end
    and leaves the text alone, so that a diagnostic may be recorded before or
    after a write with the same result. *)
Theorem writer_channels (w : OptionWriter) (xs ys : list string) (s : string) :
  write w (xs ++ ys) = write (write w xs) ys
  /\ contents (write w xs) = contents w ++ Py.join xs
  /\ errors (write w xs) = errors w
  /\ contents (new_error w s) = contents w
  /\ errors (new_error w s) = (errors w ++ [s])%list
  /\ new_error (write w xs) s = write (new_error w s) xs.
Proof.
  repeat split.
  - unfold write. cbn [writer errors]. now rewrite fold_left_app.
  - unfold contents, write. cbn [writer]. apply fold_append.
Qed.

End Renderer.

(** ** The statements on concrete schemas *)

Lemma port_end_to_end_witness :
  render Sample.safe_dump Sample.default_option_example
    [Sample.conf "conf.yaml.example" [Sample.port true]] =
  Ok [("conf.yaml.example",
       ("## port - integer - required" ++ Py.nl
          ++ "## The port to use." ++ Py.nl
          ++ "#" ++ Py.nl
          ++ "port: 8125" ++ Py.nl,
        []))]
  /\ render Sample.safe_dump Sample.default_option_example
       [Sample.conf "conf.yaml.example" [Sample.port false]] =
     Ok [("conf.yaml.example",
          ("## port - integer - optional - default: 8125" ++ Py.nl
             ++ "## The port to use." ++ Py.nl
             ++ "#" ++ Py.nl
             ++ "# port: 8125" ++ Py.nl,
           []))].
Proof.
  exact (port_end_to_end Sample.safe_dump Sample.default_option_example
           "conf.yaml.example" eq_refl).
Defined.

Lemma description_line_limit_witness :
  result_map errors
    (write_option Sample.safe_dump Sample.default_option_example
       (Sample.described 117) OptionWriter_init EmptyString false) = Ok []
  /\ result_map errors
       (write_option Sample.safe_dump Sample.default_option_example
          (Sample.described 118) OptionWriter_init EmptyString false) =
     Ok ["Description line length of option `foo` was over the limit by 1 character"].
Proof.
  destruct (description_line_limit Sample.safe_dump Sample.default_option_example)
    as (Hfits & Hover & _).
  split.
  - apply (Hfits (Sample.described 117) (Py.replicate 117 "a"%char));
      [reflexivity | reflexivity | vm_compute; lia].
  - apply (Hover (Sample.described 118) (Py.replicate 118 "a"%char) 0);
      reflexivity.
Defined.

(** C2, as the specification states it, fails: a description line of
    exactly 120 characters is written as a line of 123 and gets a diagnostic
    for 3 characters. *)
Lemma description_of_120_is_flagged :
  Py.splitlines (description (Sample.described 120)) = [Py.replicate 120 "a"%char]
  /\ String.length (Py.replicate 120 "a"%char) = 120
  /\ result_map errors
       (write_option Sample.safe_dump Sample.default_option_example
          (Sample.described 120) OptionWriter_init EmptyString false) =
     Ok ["Description line length of option `foo` was over the limit by 3 characters"]
  /\ result_map errors
       (write_option Sample.safe_dump Sample.default_option_example
          (Sample.described 120) OptionWriter_init EmptyString false) <> Ok [].
Proof.
  repeat split; try (vm_compute; reflexivity).
  intros H. vm_compute in H. discriminate H.
Qed.

Lemma indentation_steps_witness :
  result_map writer
    (write_option Sample.safe_dump Sample.default_option_example
       (Sample.port true) OptionWriter_init "    " true) =
  Ok ("    ## port - integer - required" ++ Py.nl
        ++ "    ## The port to use." ++ Py.nl
        ++ "    #" ++ Py.nl
        ++ "  - port: 8125" ++ Py.nl).
Proof.
  destruct (indentation_steps Sample.safe_dump Sample.default_option_example)
    as (_ & _ & _ & Hfirst & _).
  exact (Hfirst "port" true (Sample.integer_value (PyInt 8125)) "The port to use."
           "integer" OptionWriter_init EmptyString eq_refl).
Defined.

(** C3, as the specification states it, fails: the options of a top-level
    section stand at four spaces, and what is taken back for a list marker
    is two characters, not a step of four: the line [- {}] and the example of
    a first required child stand at two spaces, not at none. *)
Lemma dedent_is_two_characters :
  Py.drop_last2 "    " = "  "
  /\ Py.drop_last2 "    " <> EmptyString
  /\ result_map contents
       (write_option Sample.safe_dump Sample.default_option_example
          (Sample.instances []) OptionWriter_init EmptyString false) =
     Ok ("## Instances." ++ Py.nl
           ++ "#" ++ Py.nl
           ++ "instances:" ++ Py.nl
           ++ Py.nl
           ++ "  - {}" ++ Py.nl)
  /\ result_map contents
       (write_option Sample.safe_dump Sample.default_option_example
          (Sample.instances [Sample.port true]) OptionWriter_init EmptyString false) =
     Ok ("## Instances." ++ Py.nl
           ++ "#" ++ Py.nl
           ++ "instances:" ++ Py.nl
           ++ Py.nl
           ++ "    ## port - integer - required" ++ Py.nl
           ++ "    ## The port to use." ++ Py.nl
           ++ "    #" ++ Py.nl
           ++ "  - port: 8125" ++ Py.nl).
Proof.
  repeat split; try (vm_compute; reflexivity).
  intros H. vm_compute in H. discriminate H.
Qed.

Lemma multiple_section_first_child_witness :
  write_option Sample.safe_dump Sample.default_option_example
    (Sample.instances [Sample.port false]) OptionWriter_init EmptyString false =
  Ok {| writer :=
          "## Instances." ++ Py.nl
            ++ "#" ++ Py.nl
            ++ "instances:" ++ Py.nl
            ++ Py.nl
            ++ "  -" ++ Py.nl
            ++ "    ## port - integer - optional - default: 8125" ++ Py.nl
            ++ "    ## The port to use." ++ Py.nl
            ++ "    #" ++ Py.nl
            ++ "    # port: 8125" ++ Py.nl;
        errors := [] |}.
Proof.
  destruct (multiple_section_first_child Sample.safe_dump Sample.default_option_example)
    as (_ & _ & Hoptional & _).
  exact (Hoptional "instances" None "Instances." None (Sample.port false) []
           OptionWriter_init EmptyString false eq_refl).
Defined.

(** C4, as the specification states it, fails: the marker line before an
    optional first child holds the dash alone, without the space of [- ]. *)
Lemma marker_line_is_bare_dash :
  result_map (fun w => nth_error (Py.splitlines (contents w)) 4)
    (write_option Sample.safe_dump Sample.default_option_example
       (Sample.instances [Sample.port false]) OptionWriter_init EmptyString false) =
  Ok (Some "  -")
  /\ result_map (fun w => nth_error (Py.splitlines (contents w)) 4)
       (write_option Sample.safe_dump Sample.default_option_example
          (Sample.instances [Sample.port false]) OptionWriter_init EmptyString false) <>
     Ok (Some "  - ").
Proof.
  split; [vm_compute; reflexivity|].
  intros H. vm_compute in H. discriminate H.
Qed.

Lemma optional_header_default_witness :
  exists suffix,
    result_map writer
      (write_option Sample.safe_dump Sample.default_option_example
         (Sample.port false) OptionWriter_init EmptyString false) =
    Ok ("## port - integer - optional" ++ suffix ++ Py.nl
          ++ "## The port to use." ++ Py.nl
          ++ "#" ++ Py.nl
          ++ "# port: 8125" ++ Py.nl)
    /\ suffix = " - default: 8125".
Proof.
  destruct (optional_header_default Sample.safe_dump Sample.default_option_example
              "port" (Sample.integer_value (PyInt 8125)) "The port to use." "integer"
              OptionWriter_init EmptyString false eq_refl)
    as (suffix & Htext & _ & Hint & _).
  exists suffix. split; [exact Htext | exact (Hint 8125%Z eq_refl)].
Defined.

Lemma example_comment_marker_witness :
  exists header,
    result_map writer
      (write_option Sample.safe_dump Sample.default_option_example
         (Sample.port true) OptionWriter_init EmptyString false) =
    Ok (header ++ Py.nl
          ++ "## The port to use." ++ Py.nl
          ++ "#" ++ Py.nl
          ++ "port: 8125" ++ Py.nl)
    /\ header = "## port - integer - required".
Proof.
  destruct (example_comment_marker Sample.safe_dump Sample.default_option_example
              "port" true (Sample.integer_value (PyInt 8125)) "The port to use."
              "integer" OptionWriter_init EmptyString false eq_refl)
    as (header & Htext & Hrequired & _).
  exists header. split; [exact Htext | exact (Hrequired eq_refl)].
Defined.

Lemma value_type_string_cases_witness :
  value_type_string
    {| value_type := "array"; value_items := Some {| items_type := "number" |};
       value_example := None |} = Ok "list of numbers".
Proof.
  destruct value_type_string_cases as (_ & _ & _ & _ & Hlist & _).
  apply (Hlist
           {| value_type := "array"; value_items := Some {| items_type := "number" |};
              value_example := None |}
           {| items_type := "number" |});
    [reflexivity | reflexivity | discriminate | discriminate].
Defined.

Lemma duplicate_example_name_witness :
  render Sample.safe_dump Sample.default_option_example
    [Sample.conf "a" [Sample.port true]; Sample.conf "b" [];
     Sample.conf "a" [Sample.port false]] =
  Ok [("a",
       ("## port - integer - optional - default: 8125" ++ Py.nl
          ++ "## The port to use." ++ Py.nl
          ++ "#" ++ Py.nl
          ++ "# port: 8125" ++ Py.nl,
        []));
      ("b", (EmptyString, []))].
Proof.
  destruct (duplicate_example_name Sample.safe_dump Sample.default_option_example)
    as (_ & Hthree).
  eapply (Hthree (Sample.conf "a" [Sample.port true]) (Sample.conf "b" [])
            (Sample.conf "a" [Sample.port false]));
    [reflexivity | discriminate | reflexivity | reflexivity | reflexivity].
Defined.

Lemma multiple_first_child_needs_required_witness :
  write_option Sample.safe_dump Sample.default_option_example
    (Sample.instances [SectionOption "init_config" "Shared." None None None])
    OptionWriter_init EmptyString false = KeyError "required".
Proof.
  destruct (multiple_first_child_needs_required
              Sample.safe_dump Sample.default_option_example) as (Hmissing & _).
  apply Hmissing. reflexivity.
Defined.

(** ** The further statements on concrete schemas *)

Lemma file_joins_options_witness :
  render_file Sample.safe_dump Sample.default_option_example
    (Sample.conf "conf.yaml.example" [Sample.port true; Sample.port false]) =
  Ok ("## port - integer - required" ++ Py.nl
        ++ "## The port to use." ++ Py.nl
        ++ "#" ++ Py.nl
        ++ "port: 8125" ++ Py.nl
        ++ Py.nl
        ++ "## port - integer - optional - default: 8125" ++ Py.nl
        ++ "## The port to use." ++ Py.nl
        ++ "#" ++ Py.nl
        ++ "# port: 8125" ++ Py.nl,
      []).
Proof.
  apply (file_joins_options Sample.safe_dump Sample.default_option_example
           "conf.yaml.example" [Sample.port true; Sample.port false]
           [ {| writer := "## port - integer - required" ++ Py.nl
                            ++ "## The port to use." ++ Py.nl
                            ++ "#" ++ Py.nl
                            ++ "port: 8125" ++ Py.nl;
                errors := [] |};
             {| writer := "## port - integer - optional - default: 8125" ++ Py.nl
                            ++ "## The port to use." ++ Py.nl
                            ++ "#" ++ Py.nl
                            ++ "# port: 8125" ++ Py.nl;
                errors := [] |} ]).
  repeat constructor.
Defined.

Lemma first_failure_decides_witness :
  render Sample.safe_dump Sample.default_option_example
    [Sample.conf "a" [Sample.port true];
     Sample.conf "b" [Sample.port false; Node "c" (Some (Sample.integer_value PyNone))
                                           None "No key." None None None];
     Sample.conf "c" []] = KeyError "required".
Proof.
  destruct (first_failure_decides Sample.safe_dump Sample.default_option_example)
    as (Hfile & Hrender).
  apply (Hrender [Sample.conf "a" [Sample.port true]]).
  - intros g [<-|[]]. eexists. reflexivity.
  - eapply (Hfile "b" [Sample.port false]); [repeat constructor | reflexivity].
Defined.

Lemma distinct_names_in_order_witness :
  render Sample.safe_dump Sample.default_option_example
    [Sample.conf "a" []; Sample.conf "b" [Sample.port true]] =
  Ok [("a", (EmptyString, []));
      ("b", ("## port - integer - required" ++ Py.nl
               ++ "## The port to use." ++ Py.nl
               ++ "#" ++ Py.nl
               ++ "port: 8125" ++ Py.nl, []))].
Proof.
  apply (distinct_names_in_order Sample.safe_dump Sample.default_option_example
           [Sample.conf "a" []; Sample.conf "b" [Sample.port true]]
           [(EmptyString, []);
            ("## port - integer - required" ++ Py.nl
               ++ "## The port to use." ++ Py.nl
               ++ "#" ++ Py.nl
               ++ "port: 8125" ++ Py.nl, [])]).
  - repeat constructor; cbn; intuition discriminate.
  - repeat constructor.
Defined.

Lemma description_limit_at_indent_witness :
  result_map errors
    (write_option Sample.safe_dump Sample.default_option_example
       (Node "instances" None None "Instances." (Some false)
          (Some [Sample.described 114]) None)
       OptionWriter_init EmptyString false) =
  Ok ["Description line length of option `foo` was over the limit by 1 character"].
Proof.
  destruct (description_limit_at_indent Sample.safe_dump Sample.default_option_example)
    as (_ & Hnested).
  apply (Hnested "instances" None "Instances." None (Sample.described 114)
           EmptyString false); reflexivity.
Defined.

Lemma missing_keys_witness :
  write_option Sample.safe_dump Sample.default_option_example
    (Node "tags" (Some {| value_type := "array"; value_items := None;
                          value_example := None |})
       (Some false) "Tags." None None None)
    OptionWriter_init EmptyString false = KeyError "items"
  /\ write_option Sample.safe_dump Sample.default_option_example
       (Node "init_config" None None "Shared." (Some false)
          (Some [Sample.port true;
                 Node "c" (Some (Sample.integer_value PyNone)) None "No key."
                   None None None])
          None)
       OptionWriter_init EmptyString false = KeyError "required".
Proof.
  destruct (missing_keys Sample.safe_dump Sample.default_option_example)
    as (_ & Hitems & _ & Hchild).
  split.
  - apply Hitems; reflexivity.
  - eapply (Hchild "init_config" None "Shared." None [Sample.port true]);
      [repeat constructor | reflexivity].
Defined.

Lemma rendering_ends_with_line_feed_witness :
  exists body,
    "## port - integer - required" ++ Py.nl
      ++ "## The port to use." ++ Py.nl
      ++ "#" ++ Py.nl
      ++ "port: 8125" ++ Py.nl = body ++ Py.nl.
Proof.
  destruct (rendering_ends_with_line_feed Sample.safe_dump Sample.default_option_example)
    as (_ & Hfile).
  apply (Hfile "conf.yaml.example" (Sample.port true) [] _ []). reflexivity.
Defined.


Lemma description_is_written_line_by_line_witness :
  exists example_block,
    result_map writer
      (write_option Sample.safe_dump Sample.default_option_example
         (SectionOption "logs"
            ("Log Section" ++ Py.nl ++ Py.nl ++ "type - required" ++ Py.nl)
            None None None)
         OptionWriter_init EmptyString false) =
    Ok ("## Log Section" ++ Py.nl
          ++ "##" ++ Py.nl
          ++ "## type - required" ++ Py.nl
          ++ "#" ++ Py.nl
          ++ example_block).
Proof.
  destruct (description_is_written_line_by_line
              Sample.safe_dump Sample.default_option_example
              ["Log Section"; EmptyString; "type - required"])
    as (_ & Hsection).
  - repeat constructor.
  - exact (Hsection "logs" None None OptionWriter_init EmptyString false).
Defined.

(** * The Vault check *)

Module VaultTheory.
Import Vault.

Lemma drop_last_last (s : string) :
  s <> EmptyString -> drop_last s ++ last_char s = s.
Proof.
  induction s as [|c s IH]; intros Hs; [contradiction|].
  destruct s as [|c' s']; [reflexivity|].
  change (String c (drop_last (String c' s') ++ last_char (String c' s')) =
          String c (String c' s')).
  now rewrite IH.
Qed.

Lemma last_char_one (s : string) :
  s <> EmptyString -> String.length (last_char s) = 1.
Proof.
  induction s as [|c s IH]; intros Hs; [contradiction|].
  destruct s as [|c' s']; [reflexivity|].
  change (last_char (String c (String c' s'))) with (last_char (String c' s')).
  now apply IH.
Qed.

Lemma length_app (s t : string) :
  String.length (s ++ t) = String.length s + String.length t.
Proof. induction s as [|c s IH]; cbn; [reflexivity | now rewrite IH]. Qed.

Lemma snoc_nonempty (s : string) (c : ascii) : s ++ String c EmptyString <> EmptyString.
Proof. destruct s; discriminate. Qed.

Lemma drop_last_cons (a : ascii) (s : string) :
  s <> EmptyString -> drop_last (String a s) = String a (drop_last s).
Proof. destruct s; [contradiction | reflexivity]. Qed.

Lemma last_char_cons (a : ascii) (s : string) :
  s <> EmptyString -> last_char (String a s) = last_char s.
Proof. destruct s; [contradiction | reflexivity]. Qed.

Lemma drop_last_snoc (s : string) (c : ascii) :
  drop_last (s ++ String c EmptyString) = s.
Proof.
  induction s as [|a s IH]; [reflexivity|].
  cbn [append]. rewrite drop_last_cons by apply snoc_nonempty. now rewrite IH.
Qed.

Lemma last_char_snoc (s : string) (c : ascii) :
  last_char (s ++ String c EmptyString) = String c EmptyString.
Proof.
  induction s as [|a s IH]; [reflexivity|].
  cbn [append]. rewrite last_char_cons by apply snoc_nonempty. exact IH.
Qed.

Lemma truthy_nonempty (s : string) : Py.truthy s = true <-> s <> EmptyString.
Proof. destruct s; cbn; split; intros; congruence. Qed.

(** ** [parse_config] *)

(** The check once the address is put right, the warning logged and the
    methods chosen. *)
Lemma parse_config_steps (E : collaborators) (c : check) :
  api_url c <> EmptyString ->
  exists c2,
    api_url c2 = drop_last (api_url c) ++ "1"
    /\ api c2 = Some "1"
    /\ client_token c2 = client_token c
    /\ client_token_path c2 = client_token_path c
    /\ token_header c2 = token_header c
    /\ scraper_config c2 = scraper_config c
    /\ tags c2 = tags c /\ detect_leader c2 = detect_leader c
    /\ previous_leader c2 = previous_leader c
    /\ service_checks c2 = service_checks c /\ gauges c2 = gauges c
    /\ events c2 = events c
    /\ (last_char (api_url c) = "1" -> log c2 = log c)
    /\ (last_char (api_url c) <> "1" ->
        log c2 =
        (log c ++ [(WARNING,
                    ("Unknown Vault API version `" ++ last_char (api_url c)
                       ++ "`, using version `1`")%string)])%list)
    /\ parse_config E c =
       match (if truthy_field (client_token_path c2)
              then renew_client_token E c2 else (c2, Done tt)) with
       | (c3, Raised e) => (c3, Raised e)
       | (c3, Done _) =>
           match client_token c3 with
           | Some token =>
               if Py.truthy token
               then (set_client_token
                       (set_scraper_config c3
                          (api_url c3 ++ "/sys/metrics?format=prometheus")) token,
                     Done tt)
               else (c3, Done tt)
           | None => (c3, Done tt)
           end
       end.
Proof.
  intros Hurl. unfold parse_config.
  replace (Py.truthy (api_url c)) with true
    by (symmetry; now apply truthy_nonempty).
  cbn [negb].
  destruct (String.eqb_spec (last_char (api_url c)) "1") as [Hone|Hother]; cbn [negb].
  - exists (set_api c (last_char (api_url c))). rewrite Hone.
    repeat split; try reflexivity.
    + cbn. rewrite <- Hone. symmetry. now apply drop_last_last.
    + intros Hne. now destruct Hne.
  - eexists (set_api (set_api_url (log_record c WARNING _) _) DEFAULT_API_VERSION).
    repeat split; try reflexivity.
    intros Hone. contradiction.
Qed.

(** X11.  [parse_config] raises [ConfigurationError] and changes nothing
    when [api_url] is empty.  Otherwise it leaves an address that ends with
    the version [1]: the last character of the address is replaced by [1]
    whatever it was, so that the address keeps its length; an address that
    ended with [1] is kept and nothing is logged, any other gets one warning
    that names the character replaced.  The methods of version 1 are chosen
    in both cases, and the only exception left is that of reading the token
    file. *)
Theorem parse_config_api_url (E : collaborators) (c : check) :
  (api_url c = EmptyString ->
   parse_config E c =
   (c, Raised (ConfigurationError "Vault setting `api_url` is required")))
  /\ (api_url c <> EmptyString ->
      forall c' r,
        parse_config E c = (c', r) ->
        api_url c' = drop_last (api_url c) ++ "1"
        /\ String.length (api_url c') = String.length (api_url c)
        /\ api c' = Some "1"
        /\ (last_char (api_url c) = "1" -> api_url c' = api_url c /\ log c' = log c)
        /\ (last_char (api_url c) <> "1" ->
            log c' =
            (log c ++ [(WARNING,
                        ("Unknown Vault API version `" ++ last_char (api_url c)
                           ++ "`, using version `1`")%string)])%list)
        /\ (forall e, r = Raised e -> e = FileError)).
Proof.
  split.
  - intros Hempty. unfold parse_config. now rewrite Hempty.
  - intros Hurl c' r Hrun.
    destruct (parse_config_steps E c Hurl)
      as (c2 & Hu & Hapi & _ & Hpath & _ & _ & _ & _ & _ & _ & _ & _ & Hkeep & Hwarn & Heq).
    rewrite Heq in Hrun. clear Heq.
    assert (Hfacts : api_url c' = api_url c2 /\ api c' = api c2 /\ log c' = log c2
                     /\ (forall e, r = Raised e -> e = FileError)).
    { destruct (truthy_field (client_token_path c2)) eqn:Htruthy.
      - unfold renew_client_token in Hrun.
        destruct (client_token_path c2) as [path|]; [|discriminate Htruthy].
        destruct (read_file E path) as [content|].
        + cbn [client_token set_client_token] in Hrun.
          destruct (Py.truthy content); injection Hrun as <- <-;
            repeat split; intros; discriminate.
        + injection Hrun as <- <-. repeat split. intros e He. now injection He as <-.
      - destruct (client_token c2) as [token|];
          [destruct (Py.truthy token)|]; injection Hrun as <- <-;
          repeat split; intros; discriminate. }
    destruct Hfacts as (Hu' & Hapi' & Hlog' & Hexn).
    rewrite Hu', Hapi', Hlog', Hu. repeat split.
    + rewrite length_app. cbn [String.length].
      rewrite <- (drop_last_last (api_url c) Hurl) at 2.
      now rewrite length_app, last_char_one.
    + exact Hapi.
    + match goal with H : last_char _ = _ |- _ => rewrite <- H end.
      now apply drop_last_last.
    + now apply Hkeep.
    + exact Hwarn.
    + exact Hexn.
Qed.

Lemma normalised_address (u : string) :
  u <> EmptyString ->
  Py.truthy (drop_last u ++ "1") = true
  /\ last_char (drop_last u ++ "1") = "1"
  /\ drop_last (drop_last u ++ "1") ++ "1" = drop_last u ++ "1".
Proof.
  intros Hu. repeat split.
  - apply truthy_nonempty, snoc_nonempty.
  - apply last_char_snoc.
  - now rewrite drop_last_snoc.
Qed.

(** X12.  [parse_config] run again on the check it has left, in the same
    surroundings, returns and changes nothing: no second warning, the same
    address, token, header and scraper configuration. *)
Theorem parse_config_idempotent (E : collaborators) (c c' : check) :
  parse_config E c = (c', Done tt) ->
  parse_config E c' = (c', Done tt).
Proof.
  intros Hrun.
  destruct c as [u tok path tg prev det ap sc hdr scs gs evs lg].
  unfold parse_config, truthy_field, renew_client_token, DEFAULT_API_VERSION in Hrun.
  records_in Hrun.
  destruct (Py.truthy u) eqn:Hu; cbn [negb] in Hrun; [|discriminate Hrun].
  pose proof (proj1 (truthy_nonempty u) Hu) as Hne.
  destruct (normalised_address u Hne) as (Hn1 & Hn2 & Hn3).
  assert (Hone : ("1" =? "1") = true) by reflexivity.
  destruct (last_char u =? "1") eqn:Hv; cbn [negb] in Hrun; records_in Hrun;
    (destruct path as [p|];
     [destruct (Py.truthy p) eqn:Hp;
      [destruct (read_file E p) as [content|] eqn:Hread;
       [records_in Hrun; destruct (Py.truthy content) eqn:Hc | discriminate Hrun]
      |destruct tok as [token|]; [destruct (Py.truthy token) eqn:Ht|]]
     |destruct tok as [token|]; [destruct (Py.truthy token) eqn:Ht|]]);
    records_in Hrun; injection Hrun as <-;
    unfold parse_config, truthy_field, renew_client_token, DEFAULT_API_VERSION; records;
    rewrite ?Hn1, ?Hu; cbn [negb];
    rewrite ?Hn2, ?Hv, ?Hone; cbn [negb]; records;
    rewrite ?Hp; records; rewrite ?Hread; records; rewrite ?Hc, ?Ht; records;
    rewrite ?Hn3;
    try (apply String.eqb_eq in Hv; rewrite <- ?Hv);
    reflexivity.
Qed.

(** X13.  The token after [parse_config].  With a token file configured,
    the token is what the file holds, whatever token the instance gave, and
    it is put in the header [X-Vault-Token]; a file that cannot be read
    makes [parse_config] raise.  Without a file the configured token is kept.
    The scraper is configured exactly when the token in the end is not empty,
    on the address of the check followed by
    [/sys/metrics?format=prometheus], and the header then holds that token;
    with no token or an empty one the scraper configuration is left as it
    was. *)
Theorem parse_config_token (E : collaborators) (c : check) :
  (forall c',
      parse_config E c = (c', Done tt) ->
      (forall path,
          client_token_path c = Some path -> Py.truthy path = true ->
          exists content,
            read_file E path = Some content
            /\ client_token c' = Some content /\ token_header c' = Some content)
      /\ (truthy_field (client_token_path c) = false ->
          client_token c' = client_token c)
      /\ (truthy_field (client_token c') = true ->
          scraper_config c' = Some (api_url c' ++ "/sys/metrics?format=prometheus")
          /\ token_header c' = client_token c')
      /\ (truthy_field (client_token c') = false ->
          scraper_config c' = scraper_config c))
  /\ (forall path,
        api_url c <> EmptyString ->
        client_token_path c = Some path -> Py.truthy path = true ->
        read_file E path = None ->
        snd (parse_config E c) = Raised FileError).
Proof.
  destruct c as [u tok path tg prev det ap sc hdr scs gs evs lg]. split.
  - intros c' Hrun.
    unfold parse_config, truthy_field, renew_client_token, DEFAULT_API_VERSION in Hrun.
    records_in Hrun.
    destruct (Py.truthy u) eqn:Hu; cbn [negb] in Hrun; [|discriminate Hrun].
    destruct (last_char u =? "1") eqn:Hv; cbn [negb] in Hrun; records_in Hrun;
      (destruct path as [p|];
       [destruct (Py.truthy p) eqn:Hp;
        [destruct (read_file E p) as [content|] eqn:Hread;
         [records_in Hrun; destruct (Py.truthy content) eqn:Hc | discriminate Hrun]
        |destruct tok as [token|]; [destruct (Py.truthy token) eqn:Ht|]]
       |destruct tok as [token|]; [destruct (Py.truthy token) eqn:Ht|]]);
      records_in Hrun; injection Hrun as <-;
      unfold truthy_field; records; repeat split;
      try (intros p0 Hp0 Htr; injection Hp0 as <-);
      try discriminate; try congruence; intros;
      try (eexists; repeat split; eassumption);
      try reflexivity; try congruence.
  - intros p Hu Hp Htr Hread. records_in Hu. records_in Hp. subst path.
    unfold parse_config, truthy_field, renew_client_token, DEFAULT_API_VERSION. records.
    replace (Py.truthy u) with true by (symmetry; now apply truthy_nonempty).
    cbn [negb]. destruct (negb (last_char u =? "1")); records; now rewrite Htr, Hread.
Qed.

(** ** [access_api] *)

(** X14.  [access_api] returns the data of the answer, and leaves the check
    as it was, exactly when the endpoint answers with valid JSON and a status
    code that is below 400 or among the codes to ignore; no code is ignored
    when none are given. *)
Theorem access_api_accepts (E : collaborators) (c : check) (url : string)
  (tags_ : list string) (codes : option (list Z)) :
  let ignored := match codes with Some l => l | None => [] end in
  (forall status_code data,
      http_get E url = Response status_code (Json data) ->
      (status_code < 400)%Z \/ code_in status_code ignored = true ->
      access_api E c url tags_ codes = (c, Done data))
  /\ (forall c' data,
        access_api E c url tags_ codes = (c', Done data) ->
        c' = c
        /\ exists status_code,
            http_get E url = Response status_code (Json data)
            /\ ((status_code < 400)%Z \/ code_in status_code ignored = true)).
Proof.
  intros ignored. unfold access_api. fold ignored. split.
  - intros status_code data Hget Hok. rewrite Hget.
    replace ((400 <=? status_code)%Z && negb (code_in status_code ignored)) with false;
      [reflexivity|].
    symmetry. destruct Hok as [Hlow|Hin].
    + replace (400 <=? status_code)%Z with false; [reflexivity|].
      symmetry. apply Z.leb_gt. exact Hlow.
    + rewrite Hin. apply andb_false_r.
  - intros c' data Hrun.
    destruct (http_get E url) as [status_code body| |]; try discriminate Hrun.
    destruct ((400 <=? status_code)%Z && negb (code_in status_code ignored)) eqn:Hcheck.
    + destruct (api_unreachable_caught E); discriminate Hrun.
    + destruct body as [json_data|]; [|discriminate Hrun].
      injection Hrun as <- <-. split; [reflexivity|].
      exists status_code. split; [reflexivity|].
      apply andb_false_iff in Hcheck as [Hlow|Hin].
      * left. now apply Z.leb_gt.
      * right. now apply negb_false_iff.
Qed.



Lemma only_service_checks_refl (c : check) : only_service_checks c c.
Proof. now repeat split. Qed.



(** What [access_api] does to the check, whatever it returns. *)
Lemma access_api_effect (E : collaborators) (c : check) (url : string)
  (tags_ : list string) (codes : option (list Z)) (c' : check) (r : outcome py_value) :
  access_api E c url tags_ codes = (c', r) ->
  only_service_checks c c'
  /\ exists added,
      submitted c c' added /\ Forall (connect_critical tags_) added
      /\ (forall data, r = Done data -> added = []).
Proof.
  unfold access_api, handle. intros Hrun.
  destruct (http_get E url) as [status_code body| |].
  - destruct ((400 <=? status_code)%Z && negb (code_in status_code _)).
    + destruct (api_unreachable_caught E) as [h|]; injection Hrun as <- <-.
      * split; [now repeat split|]. eexists [_; _]. repeat split.
        -- unfold submitted. fields. now rewrite <- app_assoc.
        -- repeat constructor.
        -- discriminate.
      * split; [now repeat split|]. eexists [_]. repeat split.
        -- repeat constructor.
        -- discriminate.
    + destruct body as [json_data|]; injection Hrun as <- <-.
      * split; [now repeat split|]. exists []. repeat split.
        -- unfold submitted. now rewrite app_nil_r.
        -- constructor.
      * split; [now repeat split|]. eexists [_]. repeat split.
        -- repeat constructor.
        -- discriminate.
  - injection Hrun as <- <-. split; [now repeat split|]. eexists [_]. repeat split.
    + repeat constructor.
    + discriminate.
  - injection Hrun as <- <-. split; [now repeat split|]. eexists [_]. repeat split.
    + repeat constructor.
    + discriminate.
Qed.

Lemma access_api_returns (E : collaborators) (c : check) (url : string)
  (tags_ : list string) (codes : list Z) (status_code : Z) (data : py_value) :
  http_get E url = Response status_code (Json data) ->
  (status_code < 400)%Z \/ code_in status_code codes = true ->
  access_api E c url tags_ (Some codes) = (c, Done data).
Proof.
  intros Hget Hok. unfold access_api. rewrite Hget.
  replace ((400 <=? status_code)%Z && negb (code_in status_code codes)) with false;
    [reflexivity|].
  symmetry. destruct Hok as [Hlow|Hin].
  - replace (400 <=? status_code)%Z with false; [reflexivity|].
    symmetry. now apply Z.leb_gt.
  - rewrite Hin. apply andb_false_r.
Qed.

Lemma access_api_refuses (E : collaborators) (c : check) (url : string)
  (tags_ : list string) (codes : list Z) (status_code : Z) (body : json_body) :
  http_get E url = Response status_code body ->
  (400 <= status_code)%Z -> code_in status_code codes = false ->
  exists c' msg, access_api E c url tags_ (Some codes) = (c', Raised (ApiUnreachable msg)).
Proof.
  intros Hget Hhigh Hout. unfold access_api, handle. rewrite Hget.
  replace ((400 <=? status_code)%Z && negb (code_in status_code codes)) with true.
  - destruct (api_unreachable_caught E) as [h|]; do 2 eexists; reflexivity.
  - symmetry. apply andb_true_iff. split; [now apply Z.leb_le | now rewrite Hout].
Qed.



(** ** [check_health_v1] *)

Lemma health_code_in (status_code : Z) :
  (status_code < 400)%Z \/ health_code status_code ->
  (status_code < 400)%Z \/ code_in status_code SYS_HEALTH_DEFAULT_CODES = true.
Proof.
  unfold health_code, code_in, SYS_HEALTH_DEFAULT_CODES.
  intros [Hlow|Hin]; [now left|right].
  apply existsb_exists. exists status_code. split; [now right | apply Z.eqb_refl].
Qed.

Lemma health_code_out (status_code : Z) :
  (400 <= status_code)%Z -> ~ health_code status_code ->
  code_in status_code SYS_HEALTH_DEFAULT_CODES = false.
Proof.
  unfold health_code, code_in, SYS_HEALTH_DEFAULT_CODES. intros Hhigh Hnot.
  destruct (existsb (Z.eqb status_code) [200; 429; 472; 473; 501; 503]%Z) eqn:Hex;
    [|reflexivity].
  apply existsb_exists in Hex as (x & Hin & Heq). apply Z.eqb_eq in Heq. subst x.
  destruct Hin as [H200|Hin]; [lia | now destruct (Hnot Hin)].
Qed.

(** An answer of the health endpoint: the tags and the two service checks. *)
Lemma check_health_v1_answer (E : collaborators) (c : check) (tags_ : list string)
  (status_code : Z) (health_data : list (py_value * py_value)) :
  http_get E (api_url c ++ "/sys/health") =
  Response status_code (Json (PyDict health_data)) ->
  (status_code < 400)%Z \/ health_code status_code ->
  let tags' := (tags_ ++ health_tags E health_data)%list in
  check_health_v1 E c tags_ =
  (service_check
     (service_check c SERVICE_CHECK_UNSEALED
        (if is_affirmative E (lookup "sealed" health_data) then CRITICAL else OK)
        None tags')
     SERVICE_CHECK_INITIALIZED
     (if is_affirmative E (lookup "initialized" health_data) then OK else CRITICAL)
     None tags',
   Done tags').
Proof.
  intros Hget Hok tags'. unfold check_health_v1.
  rewrite (access_api_returns E c _ tags_ _ _ _ Hget (health_code_in _ Hok)).
  unfold tags', health_tags.
  destruct (py_truthy (lookup "cluster_name" health_data)),
    (py_truthy (lookup "version" health_data)),
    (is_affirmative E (lookup "sealed" health_data)),
    (is_affirmative E (lookup "initialized" health_data));
    cbn [negb app]; rewrite ?app_nil_r, <- ?app_assoc; reflexivity.
Qed.

(** X16.  [check_health_v1] reads [/sys/health] of the address of the
    check.  When the endpoint answers with a JSON object and a status code
    below 400 or one of 429, 472, 473, 501 and 503, the tags of the call get
    [cluster_name:<name>] and then [vault_version:<version>], each when the
    field holds a true value, and exactly two service checks are submitted
    with the tags so extended and no message: [vault.unsealed], CRITICAL
    exactly when [sealed] is affirmative, then [vault.initialized], OK
    exactly when [initialized] is affirmative.  Any other status code from
    400 on raises [ApiUnreachable].  When the method raises, what it has
    submitted are service checks [vault.can_connect] CRITICAL with the tags of
    the call, none for [vault.unsealed] or [vault.initialized], and nothing
    else of the check has changed. *)
Theorem check_health_v1_reports (E : collaborators) (c : check) (tags_ : list string) :
  (forall status_code health_data,
      http_get E (api_url c ++ "/sys/health") =
      Response status_code (Json (PyDict health_data)) ->
      (status_code < 400)%Z \/ health_code status_code ->
      let tags' := (tags_ ++ health_tags E health_data)%list in
      check_health_v1 E c tags_ =
      (service_check
         (service_check c SERVICE_CHECK_UNSEALED
            (if is_affirmative E (lookup "sealed" health_data) then CRITICAL else OK)
            None tags')
         SERVICE_CHECK_INITIALIZED
         (if is_affirmative E (lookup "initialized" health_data) then OK else CRITICAL)
         None tags',
       Done tags'))
  /\ (forall status_code body,
        http_get E (api_url c ++ "/sys/health") = Response status_code body ->
        (400 <= status_code)%Z -> ~ health_code status_code ->
        exists c' msg, check_health_v1 E c tags_ = (c', Raised (ApiUnreachable msg)))
  /\ (forall c' e,
        check_health_v1 E c tags_ = (c', Raised e) ->
        only_service_checks c c'
        /\ exists added, submitted c c' added /\ Forall (connect_critical tags_) added).
Proof.
  split; [|split].
  - intros status_code health_data Hget Hok.
    exact (check_health_v1_answer E c tags_ _ _ Hget Hok).
  - intros status_code body Hget Hhigh Hnot. unfold check_health_v1.
    destruct (access_api_refuses E c _ tags_ _ _ _ Hget Hhigh
                (health_code_out _ Hhigh Hnot)) as (c' & msg & ->).
    now exists c', msg.
  - intros c' e Hrun. unfold check_health_v1 in Hrun.
    destruct (access_api E c (api_url c ++ "/sys/health") tags_
                (Some SYS_HEALTH_DEFAULT_CODES)) as [c1 [data|e1]] eqn:Hcall.
    + destruct (access_api_effect _ _ _ _ _ _ _ Hcall) as (Honly & added & Hsub & Hall & _).
      destruct data; try (injection Hrun as <- <-; split; [exact Honly | now exists added]).
      destruct (negb _), (is_affirmative E (lookup "initialized" _)); discriminate Hrun.
    + destruct (access_api_effect _ _ _ _ _ _ _ Hcall) as (Honly & added & Hsub & Hall & _).
      injection Hrun as <- <-. split; [exact Honly | now exists added].
Qed.

(** ** [check_leader_v1] *)

Lemma leader_code_in (status_code : Z) :
  (status_code < 400)%Z \/ status_code = 503%Z ->
  (status_code < 400)%Z \/ code_in status_code SYS_LEADER_DEFAULT_CODES = true.
Proof.
  intros [Hlow| ->]; [now left | now right].
Qed.

(** An answer without errors: the tag, the gauge, the leader remembered and
    the event. *)
Lemma check_leader_v1_answer (E : collaborators) (c : check) (tags_ : list string)
  (status_code : Z) (leader_data : list (py_value * py_value)) :
  http_get E (api_url c ++ "/sys/leader") =
  Response status_code (Json (PyDict leader_data)) ->
  (status_code < 400)%Z \/ status_code = 503%Z ->
  py_truthy (lookup "errors" leader_data) = false ->
  let current := lookup "leader_address" leader_data in
  let tags' := (tags_ ++ [leader_tag E leader_data])%list in
  exists c',
    check_leader_v1 E c tags_ = (c', Done tags')
    /\ gauges c' =
       (gauges c
          ++ [{| g_name := "vault.is_leader";
                 g_value := if is_affirmative E (lookup "is_self" leader_data)
                            then 1%Z else 0%Z;
                 g_tags := tags' |}])%list
    /\ previous_leader c' =
       (if detect_leader c && py_truthy current
        then Some current else previous_leader c)
    /\ events c' =
       (events c
          ++ match previous_leader c with
             | Some previous =>
                 if detect_leader c && py_truthy current
                    && negb (py_equal E current previous)
                 then [leader_event E previous current tags']
                 else []
             | None => []
             end)%list
    /\ service_checks c' = service_checks c /\ log c' = log c
    /\ same_configuration c c' /\ client_token c' = client_token c
    /\ token_header c' = token_header c.
Proof.
  intros Hget Hok Herr current tags'.
  unfold check_leader_v1.
  rewrite (access_api_returns E c _ tags_ _ _ _ Hget (leader_code_in _ Hok)).
  fold current. rewrite Herr. unfold tags', leader_tag, leader_event.
  unfold same_configuration, EVENT_LEADER_CHANGE, CHECK_NAME.
  destruct c as [u tok path tg prev det ap sc hdr scs gs evs lg]. records.
  destruct (is_affirmative E (lookup "is_self" leader_data));
    destruct det, (py_truthy current); cbn [andb];
    try (destruct prev as [previous|];
         [destruct (py_equal E current previous)|]; cbn [negb]);
    eexists; (split; [reflexivity|]); records;
    rewrite ?app_nil_r; repeat split; reflexivity.
Qed.

(** X17.  [check_leader_v1] reads [/sys/leader] of the address of the
    check, accepting a status code below 400 or 503.  When the answer is a
    JSON object whose [errors] hold a true value that can be joined, the
    errors are logged and nothing else happens: no tag, no gauge, and the
    leader remembered stays.  When [errors] hold no true value, the tag
    [is_leader:true] or [is_leader:false] is added to the tags of the call and
    the gauge [vault.is_leader] is submitted with 1 or 0 and these tags; with
    [detect_leader] set and a leader address that is a true value, that
    address is remembered, and one event is submitted exactly when an address
    was remembered before and differs from it; otherwise the leader remembered
    and the events stay as they were.  No service check is submitted. *)
Theorem check_leader_v1_observes (E : collaborators) (c : check) (tags_ : list string)
  (status_code : Z) (leader_data : list (py_value * py_value)) :
  http_get E (api_url c ++ "/sys/leader") =
  Response status_code (Json (PyDict leader_data)) ->
  (status_code < 400)%Z \/ status_code = 503%Z ->
  let errors := lookup "errors" leader_data in
  let current := lookup "leader_address" leader_data in
  let tags' := (tags_ ++ [leader_tag E leader_data])%list in
  (py_truthy errors = true ->
   forall error_msg,
     py_join ";" errors = Done error_msg ->
     check_leader_v1 E c tags_ =
     (log_record c ERROR
        ("Unable to fetch leader data from vault. Reason: " ++ error_msg),
      Done tags_))
  /\ (py_truthy errors = false ->
      exists c',
        check_leader_v1 E c tags_ = (c', Done tags')
        /\ gauges c' =
           (gauges c
              ++ [{| g_name := "vault.is_leader";
                     g_value := if is_affirmative E (lookup "is_self" leader_data)
                                then 1%Z else 0%Z;
                     g_tags := tags' |}])%list
        /\ previous_leader c' =
           (if detect_leader c && py_truthy current
            then Some current else previous_leader c)
        /\ events c' =
           (events c
              ++ match previous_leader c with
                 | Some previous =>
                     if detect_leader c && py_truthy current
                        && negb (py_equal E current previous)
                     then [leader_event E previous current tags']
                     else []
                 | None => []
                 end)%list
        /\ service_checks c' = service_checks c /\ log c' = log c
        /\ same_configuration c c' /\ client_token c' = client_token c
        /\ token_header c' = token_header c).
Proof.
  intros Hget Hok errors current tags'. split.
  - intros Herr error_msg Hjoin. unfold check_leader_v1.
    rewrite (access_api_returns E c _ tags_ _ _ _ Hget (leader_code_in _ Hok)).
    fold errors. now rewrite Herr, Hjoin.
  - intros Herr. exact (check_leader_v1_answer E c tags_ _ _ Hget Hok Herr).
Qed.

(** X18.  A change of leader is reported when it is seen, and only then.
    With [detect_leader] set and no leader remembered, a first answer that
    names a leader submits no event; a second answer submits one event when
    its leader differs from the first one, naming both, and none when it is
    the same; the leader remembered is the one of the second answer. *)
Theorem leader_change_is_reported (E1 E2 : collaborators) (c : check)
  (tags1 tags2 : list string) (s1 s2 : Z) (d1 d2 : list (py_value * py_value)) :
  detect_leader c = true -> previous_leader c = None ->
  http_get E1 (api_url c ++ "/sys/leader") = Response s1 (Json (PyDict d1)) ->
  http_get E2 (api_url c ++ "/sys/leader") = Response s2 (Json (PyDict d2)) ->
  (s1 < 400)%Z \/ s1 = 503%Z -> (s2 < 400)%Z \/ s2 = 503%Z ->
  py_truthy (lookup "errors" d1) = false -> py_truthy (lookup "errors" d2) = false ->
  py_truthy (lookup "leader_address" d1) = true ->
  py_truthy (lookup "leader_address" d2) = true ->
  let first := lookup "leader_address" d1 in
  let second := lookup "leader_address" d2 in
  let c1 := fst (check_leader_v1 E1 c tags1) in
  let c2 := fst (check_leader_v1 E2 c1 tags2) in
  events c1 = events c
  /\ previous_leader c1 = Some first
  /\ previous_leader c2 = Some second
  /\ events c2 =
     (events c
        ++ (if py_equal E2 second first then []
            else [leader_event E2 first second (tags2 ++ [leader_tag E2 d2])]))%list.
Proof.
  intros Hdetect Hnone Hget1 Hget2 Hok1 Hok2 Herr1 Herr2 Hlead1 Hlead2
    first second c1 c2.
  assert (Hc1 : c1 =
                set_previous_leader
                  (gauge c "vault.is_leader"
                     (if is_affirmative E1 (lookup "is_self" d1) then 1 else 0)%Z
                     (tags1 ++ [leader_tag E1 d1])) first).
  { unfold c1, check_leader_v1.
    rewrite (access_api_returns E1 c _ tags1 _ _ _ Hget1 (leader_code_in _ Hok1)).
    rewrite Herr1. fields. rewrite Hdetect, Hlead1, Hnone. reflexivity. }
  assert (Hc2 : c2 =
                set_previous_leader
                  ((if py_equal E2 second first then fun x => x
                    else fun x =>
                           event x (leader_event E2 first second
                                      (tags2 ++ [leader_tag E2 d2])))
                     (gauge c1 "vault.is_leader"
                        (if is_affirmative E2 (lookup "is_self" d2) then 1 else 0)%Z
                        (tags2 ++ [leader_tag E2 d2]))) second).
  { unfold c2, check_leader_v1.
    assert (Hurl : api_url c1 = api_url c) by (rewrite Hc1; reflexivity).
    rewrite Hurl.
    rewrite (access_api_returns E2 c1 _ tags2 _ _ _ Hget2 (leader_code_in _ Hok2)).
    rewrite Herr2. fields.
    assert (Hd : detect_leader c1 = true) by (rewrite Hc1; exact Hdetect).
    assert (Hp : previous_leader c1 = Some first) by (rewrite Hc1; reflexivity).
    rewrite Hd, Hlead2, Hp. fold second.
    destruct (py_equal E2 second first); reflexivity. }
  rewrite Hc2, Hc1. repeat split.
  fields. destruct (py_equal E2 second first); fields; now rewrite ?app_nil_r.
Qed.


(** ** [check] *)









(** X20.  A run in which both endpoints answer well and there is no token.
    The tags of the instance get the tag of the leader and then those of the
    health data; [vault.unsealed] and [vault.initialized] are submitted with
    all of them, and [vault.can_connect] OK comes last with the same tags.
    The gauge [vault.is_leader] has the tags of the instance and the tag of
    the leader only. *)
Theorem check_run_composes (E : collaborators) (c : check) (version : string)
  (s1 s2 : Z) (leader_data health_data : list (py_value * py_value)) :
  api c = Some version ->
  http_get E (api_url c ++ "/sys/leader") = Response s1 (Json (PyDict leader_data)) ->
  (s1 < 400)%Z \/ s1 = 503%Z ->
  py_truthy (lookup "errors" leader_data) = false ->
  http_get E (api_url c ++ "/sys/health") = Response s2 (Json (PyDict health_data)) ->
  (s2 < 400)%Z \/ health_code s2 ->
  truthy_field (client_token c) = false ->
  let leader_tags := (tags c ++ [leader_tag E leader_data])%list in
  let all_tags := (leader_tags ++ health_tags E health_data)%list in
  exists c',
    run_check E c = (c', Done tt)
    /\ service_checks c' =
       (service_checks c
          ++ [{| sc_name := SERVICE_CHECK_UNSEALED;
                 sc_status := if is_affirmative E (lookup "sealed" health_data)
                              then CRITICAL else OK;
                 sc_message := None; sc_tags := all_tags |};
              {| sc_name := SERVICE_CHECK_INITIALIZED;
                 sc_status := if is_affirmative E (lookup "initialized" health_data)
                              then OK else CRITICAL;
                 sc_message := None; sc_tags := all_tags |};
              {| sc_name := SERVICE_CHECK_CONNECT; sc_status := OK;
                 sc_message := None; sc_tags := all_tags |}])%list
    /\ gauges c' =
       (gauges c
          ++ [{| g_name := "vault.is_leader";
                 g_value := if is_affirmative E (lookup "is_self" leader_data)
                            then 1%Z else 0%Z;
                 g_tags := leader_tags |}])%list.
Proof.
  intros Hapi Hget1 Hok1 Herr Hget2 Hok2 Htoken leader_tags all_tags.
  unfold run_check. rewrite Hapi.
  destruct (check_leader_v1_answer E c (tags c) s1 leader_data Hget1 Hok1 Herr)
    as (c1 & Hleader & Hg1 & _ & _ & Hsc1 & _ & Hconf1 & Htok1 & _).
  rewrite Hleader.
  assert (Hurl : api_url c1 = api_url c) by apply Hconf1.
  rewrite <- Hurl in Hget2.
  rewrite (check_health_v1_answer E c1 _ s2 health_data Hget2 Hok2).
  fields. rewrite Htok1, Htoken. eexists. split; [reflexivity|].
  fields. rewrite Hsc1, Hg1. split; [|reflexivity].
  unfold all_tags, leader_tags. rewrite <- !app_assoc. reflexivity.
Qed.


(** ** The theorems at work on the sample check *)

Lemma parse_config_api_url_witness :
  api_url Sample.fresh <> EmptyString
  /\ api_url Sample.ready = "http://vault:8200/v1"
  /\ api Sample.ready = Some "1"
  /\ log Sample.ready = [(WARNING, "Unknown Vault API version `2`, using version `1`")].
Proof.
  assert (Hurl : api_url Sample.fresh <> EmptyString) by discriminate.
  split; [exact Hurl|].
  destruct (parse_config_api_url Sample.world Sample.fresh) as (_ & Hparse).
  destruct (Hparse Hurl Sample.ready (Done tt) eq_refl)
    as (Haddress & _ & Hapi & _ & Hwarn & _).
  split; [exact Haddress|]. split; [exact Hapi|].
  apply Hwarn. discriminate.
Defined.

Lemma parse_config_idempotent_witness :
  parse_config Sample.world Sample.fresh = (Sample.ready, Done tt)
  /\ parse_config Sample.world Sample.ready = (Sample.ready, Done tt).
Proof.
  split; [reflexivity|].
  apply (parse_config_idempotent Sample.world Sample.fresh). reflexivity.
Defined.

Lemma parse_config_token_witness :
  client_token Sample.ready = Some "s.token"
  /\ token_header Sample.ready = Some "s.token"
  /\ scraper_config Sample.ready =
     Some "http://vault:8200/v1/sys/metrics?format=prometheus".
Proof.
  destruct (parse_config_token Sample.world Sample.fresh) as (Hparse & _).
  destruct (Hparse Sample.ready eq_refl) as (Hfile & _ & Hscraper & _).
  destruct (Hfile "/home/vault-sink/token" eq_refl eq_refl)
    as (content & Hread & Htoken & Hheader).
  injection Hread as <-.
  split; [exact Htoken|]. split; [exact Hheader|].
  apply Hscraper. reflexivity.
Defined.

Lemma access_api_accepts_witness :
  access_api Sample.world Sample.ready "http://vault:8200/v1/sys/health"
    ["instance:foobar"] (Some SYS_HEALTH_DEFAULT_CODES) =
  (Sample.ready, Done Sample.health_data).
Proof.
  destruct (access_api_accepts Sample.world Sample.ready
              "http://vault:8200/v1/sys/health" ["instance:foobar"]
              (Some SYS_HEALTH_DEFAULT_CODES)) as (Haccepts & _).
  apply (Haccepts 429%Z); [reflexivity | right; reflexivity].
Defined.


Lemma check_health_v1_reports_witness :
  check_health_v1 Sample.world Sample.ready ["instance:foobar"; "is_leader:true"] =
  (service_check
     (service_check Sample.ready "vault.unsealed" OK None
        ["instance:foobar"; "is_leader:true"; "cluster_name:vault-cluster-1";
         "vault_version:1.1.0"])
     "vault.initialized" OK None
     ["instance:foobar"; "is_leader:true"; "cluster_name:vault-cluster-1";
      "vault_version:1.1.0"],
   Done ["instance:foobar"; "is_leader:true"; "cluster_name:vault-cluster-1";
         "vault_version:1.1.0"]).
Proof.
  destruct (check_health_v1_reports Sample.world Sample.ready
              ["instance:foobar"; "is_leader:true"]) as (Hanswer & _).
  refine (Hanswer 429%Z
            [(PyStr "cluster_name", PyStr "vault-cluster-1");
             (PyStr "version", PyStr "1.1.0");
             (PyStr "sealed", PyBool false);
             (PyStr "initialized", PyBool true)] eq_refl _).
  right. left. reflexivity.
Defined.

Lemma check_leader_v1_observes_witness :
  exists c',
    check_leader_v1 Sample.world Sample.ready ["instance:foobar"] =
    (c', Done ["instance:foobar"; "is_leader:true"])
    /\ gauges c' =
       [{| g_name := "vault.is_leader"; g_value := 1%Z;
           g_tags := ["instance:foobar"; "is_leader:true"] |}]
    /\ previous_leader c' = Some (PyStr "https://vault-b:8200")
    /\ events c' = [].
Proof.
  destruct (check_leader_v1_observes Sample.world Sample.ready ["instance:foobar"]
              200%Z
              [(PyStr "is_self", PyBool true);
               (PyStr "leader_address", PyStr "https://vault-b:8200")]
              eq_refl (or_introl eq_refl)) as (_ & Hanswer).
  destruct (Hanswer eq_refl) as (c' & Hrun & Hgauge & Hleader & Hevents & _).
  exists c'. split; [exact Hrun|]. split; [exact Hgauge|].
  split; [exact Hleader | exact Hevents].
Defined.

Lemma leader_change_is_reported_witness :
  events (fst (check_leader_v1 Sample.moved
                 (fst (check_leader_v1 Sample.world Sample.ready ["instance:foobar"]))
                 ["instance:foobar"])) =
  [{| ev_timestamp := "1546300860.0";
      ev_event_type := "vault.leader_change";
      ev_msg_title := "Leader change";
      ev_msg_text :=
        "Leader changed from `https://vault-b:8200` to `https://vault-a:8200`.";
      ev_alert_type := "info";
      ev_source_type_name := "vault";
      ev_host := "agent-host";
      ev_tags := ["instance:foobar"; "is_leader:false"] |}].
Proof.
  destruct (leader_change_is_reported Sample.world Sample.moved Sample.ready
              ["instance:foobar"] ["instance:foobar"] 200%Z 200%Z
              [(PyStr "is_self", PyBool true);
               (PyStr "leader_address", PyStr "https://vault-b:8200")]
              [(PyStr "is_self", PyBool false);
               (PyStr "leader_address", PyStr "https://vault-a:8200")]
              eq_refl eq_refl eq_refl eq_refl (or_introl eq_refl) (or_introl eq_refl)
              eq_refl eq_refl eq_refl eq_refl)
    as (_ & _ & _ & Hevents).
  exact Hevents.
Defined.



Lemma check_run_composes_witness :
  exists c',
    run_check Sample.world Sample.anonymous_ready = (c', Done tt)
    /\ map sc_name (service_checks c') =
       ["vault.unsealed"; "vault.initialized"; "vault.can_connect"]
    /\ map sc_tags (service_checks c') =
       [["instance:foobar"; "is_leader:true"; "cluster_name:vault-cluster-1";
         "vault_version:1.1.0"];
        ["instance:foobar"; "is_leader:true"; "cluster_name:vault-cluster-1";
         "vault_version:1.1.0"];
        ["instance:foobar"; "is_leader:true"; "cluster_name:vault-cluster-1";
         "vault_version:1.1.0"]]
    /\ map g_tags (gauges c') = [["instance:foobar"; "is_leader:true"]].
Proof.
  destruct (check_run_composes Sample.world Sample.anonymous_ready "1" 200%Z 429%Z
              [(PyStr "is_self", PyBool true);
               (PyStr "leader_address", PyStr "https://vault-b:8200")]
              [(PyStr "cluster_name", PyStr "vault-cluster-1");
               (PyStr "version", PyStr "1.1.0");
               (PyStr "sealed", PyBool false);
               (PyStr "initialized", PyBool true)]
              eq_refl eq_refl (or_introl eq_refl) eq_refl eq_refl
              (or_intror (or_introl eq_refl)) eq_refl)
    as (c' & Hrun & Hchecks & Hgauges).
  exists c'. split; [exact Hrun|]. rewrite Hchecks, Hgauges.
  repeat split.
Defined.

End VaultTheory.
